(** * Verification of [scripts/spotlight_stub.c]

    The stub reads one command from [cwm_command.txt] next to the
    executable, relays it to the cwm daemon over a Unix socket and reports
    failures through [osascript].

    C strings are modelled by their contents ([list ascii], the bytes before
    the terminating NUL).  A memory buffer that some call filled with
    arbitrary bytes is turned into the C string it holds by [c_str].
    Functions that return [0]/[-1] and fill an out-parameter return an
    [option].  Calls to the operating system read a [World] record; the
    socket API calls and the [system] calls are recorded in a trace of
    [event]s. *)

From Stdlib Require Import Ascii String.
From Stdlib Require Import ZArith Lia Bool List.
Import ListNotations.

Open Scope Z_scope.
Open Scope list_scope.

(** ** Characters and literals *)

Definition cstring := list ascii.

(** A C string literal. *)
Definition lit (s : string) : cstring := list_ascii_of_string s.

Definition NUL : ascii := ascii_of_nat 0.
Definition LF : ascii := ascii_of_nat 10.
Definition CR : ascii := ascii_of_nat 13.
Definition SPACE : ascii := ascii_of_nat 32.
Definition DQUOTE : ascii := ascii_of_nat 34.
Definition COLON : ascii := ascii_of_nat 58.

(** ** Constants of the source *)

Definition SOCKET_PATH_SUFFIX : cstring := lit "/.cwm/cwm.sock".
Definition COMMAND_FILE : cstring := lit "cwm_command.txt".
Definition MAX_CMD_LEN : Z := 4096.
Definition MAX_PATH_LEN : Z := 2048.
Definition RECV_TIMEOUT_SEC : Z := 2.

(** [sizeof(addr.sun_path)] of [struct sockaddr_un] in the macOS
    [<sys/un.h>]; the header is not part of the repository. *)
Definition SUN_PATH_LEN : Z := 104.

(** ** The C library functions the stub uses *)

Module CLib.

(** The C string held by a buffer: the bytes before the first NUL. *)
Fixpoint c_str (buf : list ascii) : cstring :=
  match buf with
  | [] => []
  | c :: t => if Ascii.eqb c NUL then [] else c :: c_str t
  end.

(** [snprintf(out, size, fmt, ...)] where [s] is the fully formatted text:
    at most [size - 1] characters are stored. *)
Definition snprintf (size : Z) (s : cstring) : cstring :=
  firstn (Z.to_nat (size - 1)) s.

(** [strncpy(dst, src, n)] into a buffer whose byte [n] is NUL. *)
Definition strncpy (n : Z) (src : cstring) : cstring :=
  firstn (Z.to_nat n) src.

Fixpoint prefix_b (p s : cstring) : bool :=
  match p, s with
  | [], _ => true
  | _ :: _, [] => false
  | a :: p', b :: s' => Ascii.eqb a b && prefix_b p' s'
  end.

(** [strstr(hay, needle)]: the string from the first occurrence of
    [needle] on, or NULL. *)
Fixpoint strstr (hay needle : cstring) : option cstring :=
  if prefix_b needle hay then Some hay
  else match hay with
       | [] => None
       | _ :: t => strstr t needle
       end.

(** [strchr(s, c)] for a character [c] other than NUL. *)
Fixpoint strchr (s : cstring) (c : ascii) : option cstring :=
  match s with
  | [] => None
  | a :: t => if Ascii.eqb a c then Some s else strchr t c
  end.

(** The characters [fgets] stores when at most [n] may be read: up to and
    including the first line feed. *)
Fixpoint fgets_chars (n : nat) (stream : list ascii) : list ascii :=
  match n, stream with
  | O, _ => []
  | _, [] => []
  | S n', c :: t => if Ascii.eqb c LF then [c] else c :: fgets_chars n' t
  end.

(** [fgets(buf, size, f)] on a stream positioned at its start: NULL at end
    of file with nothing read. *)
Definition fgets (size : Z) (stream : list ascii) : option (list ascii) :=
  match stream with
  | [] => None
  | _ :: _ => Some (fgets_chars (Z.to_nat (size - 1)) stream)
  end.

End CLib.
Import CLib.

(** ** The operating system *)

(** What the process observes of its environment.  Every field is the
    result of one library or system call of the source. *)
Record World := {
  (* [_NSGetExecutablePath(buf, &size)]: the path, or failure *)
  w_NSGetExecutablePath : Z -> option cstring;
  (* [realpath(path, out)] *)
  w_realpath : cstring -> option cstring;
  (* [dirname(path)] *)
  w_dirname : cstring -> cstring;
  (* [fopen] of the path for reading: the bytes of the file, or NULL *)
  w_fopen : cstring -> option (list ascii);
  (* [getenv(name)] *)
  w_getenv : cstring -> option cstring;
  (* [access(path, F_OK)] *)
  w_access : cstring -> Z;
  (* [socket(AF_UNIX, SOCK_STREAM, 0)] *)
  w_socket : Z;
  (* [connect(sock, addr, len)], by [addr.sun_path] *)
  w_connect : cstring -> Z;
  (* [send(sock, buf, len, 0)], by the bytes handed over *)
  w_send : list ascii -> Z;
  (* [recv(sock, buf, cap, 0)]: the return value and the bytes stored *)
  w_recv : Z -> Z * list ascii
}.

(** The calls with an outside effect, in program order. *)
Inductive event :=
| Ev_socket (ret : Z)
| Ev_connect (fd : Z) (sun_path : cstring)
| Ev_setsockopt_rcvtimeo (fd : Z) (tv_sec tv_usec : Z)
| Ev_send (fd : Z) (bytes : list ascii)
| Ev_recv (fd : Z) (cap : Z)
| Ev_close (fd : Z)
| Ev_system (cmd : cstring).

Definition trace := list event.

(** ** The stub *)

Module Stub.

(** [show_error_dialog]: one [system] call running osascript's
    [display dialog]. *)
Definition show_error_dialog (title message : cstring) : trace :=
  [Ev_system
     (snprintf MAX_CMD_LEN
        (lit "osascript -e 'display dialog " ++ [DQUOTE] ++ message ++ [DQUOTE]
         ++ lit " buttons {" ++ [DQUOTE] ++ lit "OK" ++ [DQUOTE]
         ++ lit "} default button " ++ [DQUOTE] ++ lit "OK" ++ [DQUOTE]
         ++ lit " with title " ++ [DQUOTE] ++ title ++ [DQUOTE]
         ++ lit "' 2>/dev/null"))].

(** [show_notification]: one [system] call running osascript's
    [display notification]. *)
Definition show_notification (title message : cstring) : trace :=
  [Ev_system
     (snprintf MAX_CMD_LEN
        (lit "osascript -e 'display notification " ++ [DQUOTE] ++ message
         ++ [DQUOTE] ++ lit " with title " ++ [DQUOTE] ++ title ++ [DQUOTE]
         ++ lit "' 2>/dev/null"))].

(** [get_command_file_path]: the command file next to the executable. *)
Definition get_command_file_path (w : World) (out_size : Z) : option cstring :=
  match w_NSGetExecutablePath w MAX_PATH_LEN with
  | None => None
  | Some exe_path =>
      let real_path :=
        match w_realpath w exe_path with
        | Some p => p
        | None => strncpy (MAX_PATH_LEN - 1) exe_path
        end in
      let dir := w_dirname w real_path in
      Some (snprintf out_size (dir ++ lit "/" ++ COMMAND_FILE))
  end.

Definition is_crlf (c : ascii) : bool := Ascii.eqb c LF || Ascii.eqb c CR.

(** The trimming loop of [read_command]:
    [while (len > 0 && (s[len-1] == '\n' || s[len-1] == '\r')) s[--len] = 0;]
    returns the final [len]. *)
Fixpoint trim_len (s : cstring) (len : nat) : nat :=
  match len with
  | O => O
  | S l => if is_crlf (nth l s NUL) then trim_len s l else len
  end.

(** [read_command]: the first line of the command file, trimmed. *)
Definition read_command (w : World) (cmd_path : cstring) (out_size : Z)
  : option cstring :=
  match w_fopen w cmd_path with
  | None => None
  | Some f =>
      match fgets out_size f with
      | None => None
      | Some buf =>
          let out_cmd := c_str buf in
          Some (firstn (trim_len out_cmd (length out_cmd)) out_cmd)
      end
  end.

(** [get_socket_path]: [~/.cwm/cwm.sock]. *)
Definition get_socket_path (w : World) (out_size : Z) : option cstring :=
  match w_getenv w (lit "HOME") with
  | None => None
  | Some home => Some (snprintf out_size (home ++ SOCKET_PATH_SUFFIX))
  end.

(** [send_to_daemon]: the response on success ([0]), [None] for [-1], and
    the calls made. *)
Definition send_to_daemon (w : World) (socket_path command : cstring)
    (resp_size : Z) : option cstring * trace :=
  let sock := w_socket w in
  if sock <? 0 then (None, [Ev_socket sock])
  else
    let sun_path := strncpy (SUN_PATH_LEN - 1) socket_path in
    if w_connect w sun_path <? 0 then
      (None, [Ev_socket sock; Ev_connect sock sun_path; Ev_close sock])
    else
      let cmd_with_newline := snprintf MAX_CMD_LEN (command ++ [LF]) in
      if w_send w cmd_with_newline <? 0 then
        (None, [Ev_socket sock; Ev_connect sock sun_path;
                Ev_setsockopt_rcvtimeo sock RECV_TIMEOUT_SEC 0;
                Ev_send sock cmd_with_newline; Ev_close sock])
      else
        let '(n, stored) := w_recv w (resp_size - 1) in
        let response :=
          if 0 <? n then c_str (firstn (Z.to_nat n) stored) else [] in
        (Some response,
         [Ev_socket sock; Ev_connect sock sun_path;
          Ev_setsockopt_rcvtimeo sock RECV_TIMEOUT_SEC 0;
          Ev_send sock cmd_with_newline; Ev_recv sock (resp_size - 1);
          Ev_close sock]).

Definition ERROR_MARKER : cstring := [DQUOTE] ++ lit "error" ++ [DQUOTE].
Definition MESSAGE_MARKER : cstring := [DQUOTE] ++ lit "message" ++ [DQUOTE].
Definition TITLE : cstring := lit "cwm Error".

Definition is_space_or_quote (c : ascii) : bool :=
  Ascii.eqb c SPACE || Ascii.eqb c DQUOTE.

(** The loop of [main] that advances [msg_start] over spaces and double
    quotes. *)
Fixpoint skip_spaces_quotes (p : cstring) : cstring :=
  match p with
  | [] => []
  | c :: t => if is_space_or_quote c then skip_spaces_quotes t else p
  end.

(** The message extraction inside [main]: the text handed to
    [show_notification] when all four searches succeed. *)
Definition extract_message (response : cstring) : option cstring :=
  match strstr response MESSAGE_MARKER with
  | None => None
  | Some at_marker =>
      match strchr at_marker COLON with
      | None => None
      | Some at_colon =>
          let msg_start := skip_spaces_quotes (tl at_colon) in
          match strchr msg_start DQUOTE with
          | None => None
          | Some msg_end =>
              (* NUL is stored at [msg_end]: the string at [msg_start] now
                 stops there *)
              Some (firstn (length msg_start - length msg_end) msg_start)
          end
      end
  end.

(** The tail of [main] after a successful relay: exit code and calls. *)
Definition check_response (response : cstring) : Z * trace :=
  match strstr response ERROR_MARKER with
  | None => (0, [])
  | Some _ =>
      match extract_message response with
      | Some msg => (1, show_notification TITLE msg)
      | None => (1, show_notification TITLE (lit "Command failed"))
      end
  end.

Definition NOT_RUNNING_MESSAGE : cstring :=
  lit "cwm daemon is not running.\n\nStart it with:\n  cwm daemon start\n\nOr enable auto-start:\n  cwm daemon install".

Definition CONNECT_FAILED_MESSAGE : cstring :=
  lit "Failed to connect to cwm daemon.\n\nTry restarting it:\n  cwm daemon stop\n  cwm daemon start".

(** [main]: the exit code and the calls made. *)
Definition main (w : World) : Z * trace :=
  match get_command_file_path w MAX_PATH_LEN with
  | None =>
      (1, show_error_dialog TITLE (lit "Failed to locate command file"))
  | Some cmd_path =>
      match read_command w cmd_path MAX_CMD_LEN with
      | None =>
          (1, show_error_dialog TITLE (lit "Failed to read command file"))
      | Some command =>
          match get_socket_path w MAX_PATH_LEN with
          | None =>
              (1, show_error_dialog TITLE
                    (lit "Failed to determine socket path"))
          | Some socket_path =>
              if negb (w_access w socket_path =? 0) then
                (1, show_error_dialog TITLE NOT_RUNNING_MESSAGE)
              else
                match send_to_daemon w socket_path command MAX_CMD_LEN with
                | (None, tr) =>
                    (1, tr ++ show_error_dialog TITLE CONNECT_FAILED_MESSAGE)
                | (Some response, tr) =>
                    let '(code, shown) := check_response response in
                    (code, tr ++ shown)
                end
          end
      end
  end.

End Stub.
Import Stub.

(** ** Vocabulary of the specification *)

Module Spec.

(** [needle] occurs somewhere in [hay]. *)
Definition substring (needle hay : cstring) : Prop :=
  exists pre post, hay = pre ++ needle ++ post.

(** No occurrence of [needle] in [hay] starts at an offset below [n]. *)
Definition no_occurrence_before (needle hay : cstring) (n : nat) : bool :=
  forallb (fun j => negb (prefix_b needle (skipn j hay))) (seq 0 n).

(** The first line of a file, without its line feed. *)
Fixpoint first_line (f : list ascii) : list ascii :=
  match f with
  | [] => []
  | c :: t => if Ascii.eqb c LF then [] else c :: first_line t
  end.

Fixpoint drop_while (p : ascii -> bool) (s : list ascii) : list ascii :=
  match s with
  | [] => []
  | c :: t => if p c then drop_while p t else s
  end.

(** A line with every trailing carriage return and line feed removed. *)
Definition strip_trailing_crlf (s : list ascii) : list ascii :=
  rev (drop_while is_crlf (rev s)).

(** A message field as the specification writes it: the marker, a colon,
    one space and the value between double quotes. *)
Definition message_field (x : cstring) : cstring :=
  MESSAGE_MARKER ++ [COLON; SPACE; DQUOTE] ++ x ++ [DQUOTE].

(** The interpreter as the specification words it: the message field is
    looked for in the part of the response that follows the error marker. *)
Definition check_response_after_marker (response : cstring) : Z * trace :=
  match strstr response ERROR_MARKER with
  | None => (0, [])
  | Some at_error =>
      match extract_message (skipn (length ERROR_MARKER) at_error) with
      | Some msg => (1, show_notification TITLE msg)
      | None => (1, show_notification TITLE (lit "Command failed"))
      end
  end.

(** The reasons for which the message field of a response cannot be read:
    no message marker; no colon after its first occurrence; no double quote
    after the start of the value. *)
Inductive unparseable : cstring -> Prop :=
| no_marker response :
    ~ substring MESSAGE_MARKER response ->
    unparseable response
| no_delimiter pre rest :
    no_occurrence_before MESSAGE_MARKER (pre ++ MESSAGE_MARKER ++ rest)
      (length pre) = true ->
    ~ In COLON rest ->
    unparseable (pre ++ MESSAGE_MARKER ++ rest)
| no_closing_quote pre mid blanks value :
    no_occurrence_before MESSAGE_MARKER
      (pre ++ MESSAGE_MARKER ++ mid ++ [COLON] ++ blanks ++ value)
      (length pre) = true ->
    ~ In COLON mid ->
    forallb is_space_or_quote blanks = true ->
    ~ In DQUOTE value ->
    unparseable (pre ++ MESSAGE_MARKER ++ mid ++ [COLON] ++ blanks ++ value).

(** The pipeline of [main] got as far as a successful relay: [tr] are the
    socket calls made and [response] is what the daemon answered. *)
Definition relays (w : World) (tr : trace) (response : cstring) : Prop :=
  exists cmd_path command socket_path,
    get_command_file_path w MAX_PATH_LEN = Some cmd_path /\
    read_command w cmd_path MAX_CMD_LEN = Some command /\
    get_socket_path w MAX_PATH_LEN = Some socket_path /\
    w_access w socket_path = 0 /\
    send_to_daemon w socket_path command MAX_CMD_LEN = (Some response, tr).

Definition is_socket_call (e : event) : bool :=
  match e with
  | Ev_system _ => false
  | _ => true
  end.

Definition is_system_call (e : event) : bool :=
  match e with
  | Ev_system _ => true
  | _ => false
  end.

Definition is_recv_call (e : event) : bool :=
  match e with
  | Ev_recv _ _ => true
  | _ => false
  end.

(** A [system] call that runs osascript's [display dialog]. *)
Definition is_dialog (e : event) : bool :=
  match e with
  | Ev_system cmd => prefix_b (lit "osascript -e 'display dialog ") cmd
  | _ => false
  end.

(** A [system] call that runs osascript's [display notification]. *)
Definition is_notification (e : event) : bool :=
  match e with
  | Ev_system cmd => prefix_b (lit "osascript -e 'display notification ") cmd
  | _ => false
  end.

(** A presentation call: a blocking dialog or a notification. *)
Definition is_presentation (e : event) : bool :=
  is_dialog e || is_notification e.

Definition is_connect_call (e : event) : bool :=
  match e with
  | Ev_connect _ _ => true
  | _ => false
  end.

Definition is_send_call (e : event) : bool :=
  match e with
  | Ev_send _ _ => true
  | _ => false
  end.

Definition is_close_of (fd : Z) (e : event) : bool :=
  match e with
  | Ev_close fd' => fd' =? fd
  | _ => false
  end.

Definition count (p : event -> bool) (tr : trace) : nat :=
  length (filter p tr).

(** The descriptors that are open after the calls of [tr], starting from
    the open descriptors [fds]. *)
Fixpoint open_fds (tr : trace) (fds : list Z) : list Z :=
  match tr with
  | [] => fds
  | Ev_socket fd :: t =>
      if fd <? 0 then open_fds t fds else open_fds t (fd :: fds)
  | Ev_close fd :: t => open_fds t (remove Z.eq_dec fd fds)
  | _ :: t => open_fds t fds
  end.

End Spec.
Import Spec.

(** ** Concrete environments *)

Module Demo.

Definition cstring_eqb (a b : cstring) : bool :=
  if list_eq_dec ascii_dec a b then true else false.

(** An installation in [/Applications/Focus.app]: the command file holds
    [file] (or is missing), [HOME] is [home], the probe of the socket path
    returns [probe], the socket calls return [sock], [conn] and [sent], and
    [recv] returns [received]. *)
Definition world (file : option (list ascii)) (home : option cstring)
    (probe sock conn sent : Z) (received : Z * list ascii) : World :=
  {| w_NSGetExecutablePath := fun _ => Some (lit "/Applications/Focus.app/stub");
     w_realpath := fun p => Some p;
     w_dirname := fun _ => lit "/Applications/Focus.app";
     w_fopen := fun p =>
       if cstring_eqb p (lit "/Applications/Focus.app/cwm_command.txt")
       then file else None;
     w_getenv := fun name =>
       if cstring_eqb name (lit "HOME") then home else None;
     w_access := fun _ => probe;
     w_socket := sock;
     w_connect := fun _ => conn;
     w_send := fun _ => sent;
     w_recv := fun _ => received |}.

(** The daemon is up and answers [response] to the command [focus left]. *)
Definition answering (response : cstring) : World :=
  world (Some (lit "focus left" ++ [LF])) (Some (lit "/Users/ada"))
        0 3 0 11 (Z.of_nat (length response), response).

Definition answering_trace : trace :=
  [Ev_socket 3; Ev_connect 3 (lit "/Users/ada/.cwm/cwm.sock");
   Ev_setsockopt_rcvtimeo 3 RECV_TIMEOUT_SEC 0;
   Ev_send 3 (lit "focus left" ++ [LF]); Ev_recv 3 4095; Ev_close 3].

(** No executable path can be obtained. *)
Definition unlocatable : World :=
  {| w_NSGetExecutablePath := fun _ => None;
     w_realpath := fun p => Some p;
     w_dirname := fun p => p;
     w_fopen := fun _ => None;
     w_getenv := fun _ => None;
     w_access := fun _ => -1;
     w_socket := -1;
     w_connect := fun _ => -1;
     w_send := fun _ => -1;
     w_recv := fun _ => (-1, []) |}.

Definition command_path : cstring :=
  lit "/Applications/Focus.app/cwm_command.txt".

(** A command of 4095 characters. *)
Definition long_command : cstring := repeat "a"%char 4095.

(** The command file holds a line of 4095 characters and its line feed;
    the daemon accepts the connection and sends nothing back. *)
Definition long_command_world : World :=
  world (Some (long_command ++ [LF])) (Some (lit "/Users/ada"))
        0 3 0 4095 (0, []).

(** [HOME] is set to the empty string; the rest is in order. *)
Definition empty_home_world : World :=
  world (Some (lit "focus left" ++ [LF])) (Some []) 0 3 0 11 (0, []).

(** [HOME] is not set. *)
Definition no_home_world : World :=
  world (Some (lit "focus left" ++ [LF])) None 0 3 0 11 (0, []).

(** The daemon's socket is not there. *)
Definition no_daemon_world : World :=
  world (Some (lit "focus left" ++ [LF])) (Some (lit "/Users/ada"))
        (-1) 3 0 11 (0, []).

(** [recv] times out. *)
Definition timeout_world : World :=
  world (Some (lit "focus left" ++ [LF])) (Some (lit "/Users/ada"))
        0 3 0 11 (-1, []).

(** An error answer: the error marker first, then the message field. *)
Definition error_response (x : cstring) : cstring :=
  lit "{" ++ ERROR_MARKER ++ lit ": true, " ++ message_field x ++ lit "}".

(** An error answer with the message field in front of the error
    marker. *)
Definition message_first_response (x : cstring) : cstring :=
  lit "{" ++ message_field x ++ lit ", " ++ ERROR_MARKER ++ lit ": true}".

(** An error answer with two message markers: the first is followed by the
    number 7, the second begins the message field. *)
Definition two_fields_response (x : cstring) : cstring :=
  lit "{" ++ MESSAGE_MARKER ++ lit ": 7, " ++ ERROR_MARKER
  ++ lit ": true, " ++ [DQUOTE] ++ lit "detail" ++ [DQUOTE] ++ lit ": {"
  ++ message_field x ++ lit "}}".

(** A command file with blanks around the command, a CR LF line ending
    and a second line. *)
Definition padded_file : list ascii :=
  lit " focus left  " ++ [CR; LF] ++ lit "second line" ++ [LF].

Definition padded_file_world : World :=
  world (Some padded_file) (Some (lit "/Users/ada")) 0 3 0 14 (0, []).

(** An error answer cut off inside the message value: the marker, the
    message marker, a colon, a space, an opening quote and [oops], with no
    closing quote. *)
Definition unterminated_response : cstring :=
  lit "{" ++ ERROR_MARKER ++ lit ": true, " ++ MESSAGE_MARKER
  ++ [COLON; SPACE; DQUOTE] ++ lit "oops".

(** A command file whose only line has 5000 characters and no line
    feed. *)
Definition overlong_file : list ascii := repeat "a"%char 5000.

Definition overlong_file_world : World :=
  world (Some overlong_file) (Some (lit "/Users/ada")) 0 3 0 4095 (0, []).

(** The command file is missing. *)
Definition no_file_world : World :=
  world None (Some (lit "/Users/ada")) 0 3 0 11 (0, []).

(** [realpath] fails; the executable was started as
    [/opt/cwm/Focus.app/stub]. *)
Definition unresolved_world : World :=
  {| w_NSGetExecutablePath := fun _ => Some (lit "/opt/cwm/Focus.app/stub");
     w_realpath := fun _ => None;
     w_dirname := fun p => firstn (length p - 5) p;
     w_fopen := fun _ => None;
     w_getenv := fun _ => None;
     w_access := fun _ => -1;
     w_socket := -1;
     w_connect := fun _ => -1;
     w_send := fun _ => -1;
     w_recv := fun _ => (-1, []) |}.

(** A home directory of 2040 characters. *)
Definition long_home : cstring := lit "/" ++ repeat "h"%char 2039.

Definition long_home_world : World :=
  world (Some (lit "focus left" ++ [LF])) (Some long_home) 0 3 0 11 (0, []).

(** The socket file is there but nobody listens: [connect] fails. *)
Definition stale_socket_world : World :=
  world (Some (lit "focus left" ++ [LF])) (Some (lit "/Users/ada"))
        0 3 (-1) 11 (0, []).

Definition stale_socket_trace : trace :=
  [Ev_socket 3; Ev_connect 3 (lit "/Users/ada/.cwm/cwm.sock"); Ev_close 3].

(** The daemon answers [ok], a NUL byte and then an error answer. *)
Definition nul_cut_bytes : list ascii :=
  lit "ok" ++ [NUL] ++ error_response (lit "hidden").

(** A compact error answer: no space after the colons. *)
Definition compact_response (x : cstring) : cstring :=
  lit "{" ++ ERROR_MARKER ++ lit ":true," ++ MESSAGE_MARKER ++ [COLON; DQUOTE]
  ++ x ++ [DQUOTE] ++ lit "}".

End Demo.

(** * Facts about the C library model *)

(** Closes [~ In c s] for a literal string [s] that does not hold [c]. *)
Ltac not_in_literal :=
  let H := fresh "H" in
  vm_compute; intros H;
  repeat (destruct H as [H|H]; [discriminate|]); exact H.

(** Closes [substring a b] for literals, given what stands before and
    after the occurrence. *)
Ltac occurs_between pre post :=
  exists pre, post; vm_compute; reflexivity.

Section CLibFacts.

Lemma eqb_ascii_refl (a : ascii) : Ascii.eqb a a = true.
Proof. apply Ascii.eqb_refl. Qed.

Lemma prefix_b_app (p r : cstring) : prefix_b p (p ++ r) = true.
Proof.
  induction p as [|a p IH]; simpl; [reflexivity|].
  now rewrite eqb_ascii_refl, IH.
Qed.

Lemma prefix_b_inv (p s : cstring) :
  prefix_b p s = true -> exists r, s = p ++ r.
Proof.
  revert s; induction p as [|a p IH]; intros s H.
  - now exists s.
  - destruct s as [|b s]; simpl in H; [discriminate|].
    apply andb_true_iff in H as [Hab Hp].
    apply Ascii.eqb_eq in Hab; subst b.
    destruct (IH _ Hp) as [r ->]. now exists r.
Qed.

Lemma prefix_b_firstn (p r : cstring) (n : nat) :
  (length p <= n)%nat -> prefix_b p (firstn n (p ++ r)) = true.
Proof.
  revert n; induction p as [|a p IH]; intros n Hn; simpl; [reflexivity|].
  destruct n as [|n]; simpl in *; [lia|].
  rewrite eqb_ascii_refl, IH by lia. reflexivity.
Qed.

Lemma c_str_no_nul (s : list ascii) : ~ In NUL s -> c_str s = s.
Proof.
  induction s as [|c s IH]; intros H; simpl; [reflexivity|].
  destruct (Ascii.eqb c NUL) eqn:E.
  - apply Ascii.eqb_eq in E. exfalso; apply H; now left.
  - rewrite IH; [reflexivity|]. intros Hin; apply H; now right.
Qed.

Lemma strstr_sound (hay needle s : cstring) :
  strstr hay needle = Some s ->
  prefix_b needle s = true /\ exists pre, hay = pre ++ s.
Proof.
  induction hay as [|c hay IH]; simpl.
  - destruct (prefix_b needle []) eqn:E; [|discriminate].
    intros [= <-]. split; [assumption|now exists []].
  - destruct (prefix_b needle (c :: hay)) eqn:E.
    + intros [= <-]. split; [assumption|now exists []].
    + intros H. destruct (IH H) as [Hp [pre ->]].
      split; [assumption|now exists (c :: pre)].
Qed.

Lemma strstr_complete (pre post needle : cstring) :
  strstr (pre ++ needle ++ post) needle <> None.
Proof.
  induction pre as [|c pre IH].
  - simpl app at 1. destruct (needle ++ post) eqn:E; simpl;
      rewrite <- E, prefix_b_app; discriminate.
  - simpl. destruct (prefix_b needle (c :: pre ++ needle ++ post));
      [discriminate|assumption].
Qed.

Lemma strstr_substring (hay needle : cstring) :
  substring needle hay <-> strstr hay needle <> None.
Proof.
  split.
  - intros (pre & post & ->). apply strstr_complete.
  - destruct (strstr hay needle) as [s|] eqn:E; [intros _|congruence].
    destruct (strstr_sound _ _ _ E) as [Hp [pre ->]].
    destruct (prefix_b_inv _ _ Hp) as [post ->].
    now exists pre, post.
Qed.

Lemma forallb_seq_shift (f : nat -> bool) (n start : nat) :
  forallb f (seq (S start) n) = forallb (fun j => f (S j)) (seq start n).
Proof.
  revert start; induction n as [|n IH]; intros start; simpl; [reflexivity|].
  now rewrite IH.
Qed.

Lemma no_occurrence_before_S (needle : cstring) (c : ascii) (hay : cstring)
    (n : nat) :
  no_occurrence_before needle (c :: hay) (S n) = true ->
  prefix_b needle (c :: hay) = false /\
  no_occurrence_before needle hay n = true.
Proof.
  unfold no_occurrence_before. rewrite <- cons_seq. simpl.
  intros H. apply andb_true_iff in H as [H0 H1].
  split; [now apply negb_true_iff|].
  rewrite forallb_seq_shift in H1. exact H1.
Qed.

(** [strstr] stops at the first occurrence. *)
Lemma strstr_first (needle pre s : cstring) :
  no_occurrence_before needle (pre ++ s) (length pre) = true ->
  prefix_b needle s = true ->
  strstr (pre ++ s) needle = Some s.
Proof.
  induction pre as [|c pre IH]; intros Hno Hs.
  - destruct s; simpl in *; now rewrite Hs.
  - simpl in Hno. apply no_occurrence_before_S in Hno as [H0 Hno].
    simpl. simpl in H0. rewrite H0. now apply IH.
Qed.

Lemma strchr_first (c : ascii) (pre rest : cstring) :
  ~ In c pre -> strchr (pre ++ c :: rest) c = Some (c :: rest).
Proof.
  induction pre as [|a pre IH]; intros H; simpl.
  - now rewrite eqb_ascii_refl.
  - destruct (Ascii.eqb a c) eqn:E.
    + apply Ascii.eqb_eq in E. exfalso; apply H; now left.
    + apply IH. intros Hin; apply H; now right.
Qed.

Lemma strchr_none (c : ascii) (s : cstring) :
  ~ In c s -> strchr s c = None.
Proof.
  induction s as [|a s IH]; intros H; simpl; [reflexivity|].
  destruct (Ascii.eqb a c) eqn:E.
  - apply Ascii.eqb_eq in E. exfalso; apply H; now left.
  - apply IH. intros Hin; apply H; now right.
Qed.

Lemma strchr_sound (c : ascii) (s r : cstring) :
  strchr s c = Some r -> In c s.
Proof.
  induction s as [|a s IH]; simpl; [discriminate|].
  destruct (Ascii.eqb a c) eqn:E.
  - apply Ascii.eqb_eq in E. intros _. now left.
  - intros H. right. now apply IH.
Qed.

End CLibFacts.

(** * The command reader *)

Section CommandReader.

Lemma fgets_chars_first_line (n : nat) (f : list ascii) :
  (length (first_line f) <= n)%nat ->
  fgets_chars n f = first_line f \/ fgets_chars n f = first_line f ++ [LF].
Proof.
  revert f; induction n as [|n IH]; intros f Hlen.
  - left. destruct (first_line f); simpl in *; [|lia].
    now destruct f.
  - destruct f as [|c f]; simpl in *; [now left|].
    destruct (Ascii.eqb c LF) eqn:E.
    + right. apply Ascii.eqb_eq in E. now subst c.
    + simpl in Hlen. destruct (IH f) as [H|H]; [lia| |]; rewrite H; auto.
Qed.

Lemma fgets_nonempty (size : Z) (f : list ascii) :
  f <> [] -> fgets size f = Some (fgets_chars (Z.to_nat (size - 1)) f).
Proof. destruct f; [contradiction|reflexivity]. Qed.

Lemma trim_len_le (s : cstring) (len : nat) : (trim_len s len <= len)%nat.
Proof.
  induction len as [|l IH]; simpl; [lia|].
  destruct (is_crlf (nth l s NUL)); lia.
Qed.

Lemma trim_len_app (s t : cstring) (len : nat) :
  (len <= length s)%nat -> trim_len (s ++ t) len = trim_len s len.
Proof.
  induction len as [|l IH]; intros H; simpl; [reflexivity|].
  rewrite app_nth1 by lia. rewrite IH by lia. reflexivity.
Qed.

(** One turn of the trimming loop, seen from the end of the string. *)
Lemma trim_snoc (s : cstring) (c : ascii) :
  firstn (trim_len (s ++ [c]) (length (s ++ [c]))) (s ++ [c]) =
  if is_crlf c then firstn (trim_len s (length s)) s else s ++ [c].
Proof.
  rewrite length_app. simpl length. rewrite Nat.add_1_r.
  simpl trim_len. rewrite app_nth2, Nat.sub_diag by lia. simpl nth.
  destruct (is_crlf c).
  - rewrite trim_len_app by lia.
    rewrite firstn_app.
    pose proof (trim_len_le s (length s)) as Hle.
    replace (trim_len s (length s) - length s)%nat with 0%nat by lia.
    simpl. now rewrite app_nil_r.
  - replace (S (length s)) with (length (s ++ [c])).
    + apply firstn_all.
    + rewrite length_app. simpl. lia.
Qed.

Lemma strip_snoc (s : cstring) (c : ascii) :
  strip_trailing_crlf (s ++ [c]) =
  if is_crlf c then strip_trailing_crlf s else s ++ [c].
Proof.
  unfold strip_trailing_crlf. rewrite rev_app_distr. simpl.
  destruct (is_crlf c); [reflexivity|].
  simpl. now rewrite rev_involutive.
Qed.

(** The loop of [read_command] removes exactly the trailing CR and LF. *)
Lemma trim_is_strip (s : cstring) :
  firstn (trim_len s (length s)) s = strip_trailing_crlf s.
Proof.
  induction s as [|c s IH] using rev_ind; [reflexivity|].
  rewrite trim_snoc, strip_snoc, IH. reflexivity.
Qed.

(** What [strip_trailing_crlf] returns: a prefix that does not end in CR or
    LF, the rest being CR and LF only. *)
Lemma strip_trailing_crlf_spec (s : cstring) :
  exists tail,
    s = strip_trailing_crlf s ++ tail /\
    Forall (fun c => c = CR \/ c = LF) tail /\
    forall p c, strip_trailing_crlf s = p ++ [c] -> c <> CR /\ c <> LF.
Proof.
  induction s as [|c s IH] using rev_ind.
  - exists []. repeat split; [constructor| |];
      destruct p; discriminate.
  - rewrite strip_snoc. destruct (is_crlf c) eqn:E.
    + destruct IH as (tail & Hs & Htail & Hlast).
      exists (tail ++ [c]). repeat split.
      * rewrite app_assoc, <- Hs. reflexivity.
      * apply Forall_app; split; [assumption|].
        constructor; [|constructor].
        unfold is_crlf in E. apply orb_true_iff in E as [E|E];
          apply Ascii.eqb_eq in E; auto.
      * apply (Hlast p c0 H).
      * apply (Hlast p c0 H).
    + exists []. rewrite app_nil_r. repeat split; [constructor| |];
        apply app_inj_tail in H as [_ <-]; intros ->; discriminate.
Qed.

Lemma first_line_no_LF (f : list ascii) : ~ In LF (first_line f).
Proof.
  induction f as [|c f IH]; simpl; [tauto|].
  destruct (Ascii.eqb c LF) eqn:E; simpl; [tauto|].
  intros [H|H]; [|tauto]. subst c. now rewrite eqb_ascii_refl in E.
Qed.

(** C5.  For a command file that is not empty, whose first line has at most
    4095 characters and is text (holds no NUL byte), whether or not the line
    ends in LF or CR LF, [read_command] returns the line with all its
    trailing CR and LF removed: the result is a prefix of the line that does
    not end in CR or LF, and what was cut off is CR and LF only. *)
Theorem read_command_first_line (w : World) (cmd_path : cstring)
    (file : list ascii) :
  w_fopen w cmd_path = Some file ->
  file <> [] ->
  (length (first_line file) <= 4095)%nat ->
  ~ In NUL (first_line file) ->
  let cmd := strip_trailing_crlf (first_line file) in
  read_command w cmd_path MAX_CMD_LEN = Some cmd /\
  exists tail,
    first_line file = cmd ++ tail /\
    Forall (fun c => c = CR \/ c = LF) tail /\
    forall p c, cmd = p ++ [c] -> c <> CR /\ c <> LF.
Proof.
  intros Hopen Hne Hlen Hnul cmd. split; [|apply strip_trailing_crlf_spec].
  unfold read_command. rewrite Hopen, (fgets_nonempty _ _ Hne).
  change (Z.to_nat (MAX_CMD_LEN - 1)) with 4095%nat.
  f_equal. rewrite trim_is_strip.
  destruct (fgets_chars_first_line 4095 file Hlen) as [H|H]; rewrite H.
  - rewrite c_str_no_nul by assumption. reflexivity.
  - rewrite c_str_no_nul.
    + rewrite strip_snoc. reflexivity.
    + rewrite in_app_iff. intros [Hin|[Hin|[]]]; [tauto|discriminate].
Qed.

(** Reading [Demo.padded_file]: the CR LF goes, the blanks stay, the
    second line is not read. *)
Lemma read_command_first_line_witness :
  read_command Demo.padded_file_world Demo.command_path MAX_CMD_LEN
    = Some (lit " focus left  ") /\
  exists tail,
    first_line Demo.padded_file = lit " focus left  " ++ tail /\
    Forall (fun c => c = CR \/ c = LF) tail /\
    forall p c, lit " focus left  " = p ++ [c] -> c <> CR /\ c <> LF.
Proof.
  apply (read_command_first_line Demo.padded_file_world Demo.command_path
           Demo.padded_file).
  - reflexivity.
  - discriminate.
  - apply Nat.leb_le. vm_compute. reflexivity.
  - not_in_literal.
Defined.

End CommandReader.

(** * The socket locator *)

Section SocketLocator.

Lemma snprintf_fits (size : Z) (s : cstring) :
  Z.of_nat (length s) <= size - 1 -> snprintf size s = s.
Proof.
  intros H. unfold snprintf. apply firstn_all2. lia.
Qed.

Lemma count_app (p : event -> bool) (a b : trace) :
  count p (a ++ b) = (count p a + count p b)%nat.
Proof. unfold count. now rewrite filter_app, length_app. Qed.

Lemma dialog_no_socket_call (title message : cstring) :
  count is_socket_call (show_error_dialog title message) = 0%nat.
Proof. reflexivity. Qed.

(** Without a socket path [main] stops at a dialog. *)
Lemma main_without_socket_path (w : World) :
  get_socket_path w MAX_PATH_LEN = None ->
  fst (main w) = 1 /\ count is_socket_call (snd (main w)) = 0%nat.
Proof.
  intros H. unfold main.
  destruct (get_command_file_path w MAX_PATH_LEN) as [cmd_path|];
    [|split; reflexivity].
  destruct (read_command w cmd_path MAX_CMD_LEN) as [command|];
    [|split; reflexivity].
  rewrite H. split; reflexivity.
Qed.

(** C2, as the code has it.  The socket locator fails exactly when [HOME]
    is not set, and the process then exits with code 1 without any socket
    call.  When [HOME] is set, be it to the empty string, the locator
    succeeds, and for a [HOME] of at most 2033 characters its result is
    [HOME] followed by [/.cwm/cwm.sock]. *)
Theorem get_socket_path_by_home (w : World) :
  (w_getenv w (lit "HOME") = None ->
   get_socket_path w MAX_PATH_LEN = None /\
   fst (main w) = 1 /\
   count is_socket_call (snd (main w)) = 0%nat) /\
  (forall home,
     w_getenv w (lit "HOME") = Some home ->
     exists path,
       get_socket_path w MAX_PATH_LEN = Some path /\
       ((length home <= 2033)%nat -> path = home ++ SOCKET_PATH_SUFFIX)).
Proof.
  split.
  - intros H.
    assert (Hnone : get_socket_path w MAX_PATH_LEN = None)
      by (unfold get_socket_path; now rewrite H).
    split; [exact Hnone|]. now apply main_without_socket_path.
  - intros home H. unfold get_socket_path. rewrite H.
    eexists; split; [reflexivity|].
    intros Hlen. apply snprintf_fits.
    rewrite length_app. unfold MAX_PATH_LEN.
    change (length SOCKET_PATH_SUFFIX) with 14%nat. lia.
Qed.

(** The two cases on concrete environments: [HOME] unset, and [HOME] set
    to [/Users/ada]. *)
Lemma get_socket_path_by_home_witness :
  (get_socket_path Demo.no_home_world MAX_PATH_LEN = None /\
   fst (main Demo.no_home_world) = 1 /\
   count is_socket_call (snd (main Demo.no_home_world)) = 0%nat) /\
  get_socket_path (Demo.answering []) MAX_PATH_LEN
    = Some (lit "/Users/ada/.cwm/cwm.sock").
Proof.
  split.
  - apply (proj1 (get_socket_path_by_home Demo.no_home_world)).
    reflexivity.
  - destruct (proj2 (get_socket_path_by_home (Demo.answering []))
                (lit "/Users/ada") eq_refl) as (path & E & Hpath).
    rewrite E, Hpath; [reflexivity|].
    apply Nat.leb_le. reflexivity.
Defined.

(** C2 as it is written fails: with [HOME] set to the empty string the
    locator does not fail, it returns [/.cwm/cwm.sock], and the process goes
    on to the socket and exits with code 0. *)
Lemma empty_home_is_accepted :
  w_getenv Demo.empty_home_world (lit "HOME") = Some [] /\
  get_socket_path Demo.empty_home_world MAX_PATH_LEN
    = Some (lit "/.cwm/cwm.sock") /\
  main Demo.empty_home_world =
    (0, [Ev_socket 3; Ev_connect 3 (lit "/.cwm/cwm.sock");
         Ev_setsockopt_rcvtimeo 3 2 0;
         Ev_send 3 (lit "focus left" ++ [LF]); Ev_recv 3 4095; Ev_close 3]).
Proof. repeat split; vm_compute; reflexivity. Qed.

End SocketLocator.

(** * The relay client *)

Section RelayClient.

Variable w : World.
Variables socket_path command : cstring.

Let sock := w_socket w.
Let sun_path := strncpy (SUN_PATH_LEN - 1) socket_path.
Let payload := snprintf MAX_CMD_LEN (command ++ [LF]).

(** The four ways out of [send_to_daemon], with the calls made on each. *)
Lemma send_to_daemon_paths (resp_size : Z) :
  let r := send_to_daemon w socket_path command resp_size in
  (sock < 0 /\ r = (None, [Ev_socket sock])) \/
  (0 <= sock /\ w_connect w sun_path < 0 /\
   r = (None, [Ev_socket sock; Ev_connect sock sun_path; Ev_close sock])) \/
  (0 <= sock /\ 0 <= w_connect w sun_path /\ w_send w payload < 0 /\
   r = (None, [Ev_socket sock; Ev_connect sock sun_path;
               Ev_setsockopt_rcvtimeo sock RECV_TIMEOUT_SEC 0;
               Ev_send sock payload; Ev_close sock])) \/
  (0 <= sock /\ 0 <= w_connect w sun_path /\ 0 <= w_send w payload /\
   exists response,
     r = (Some response,
          [Ev_socket sock; Ev_connect sock sun_path;
           Ev_setsockopt_rcvtimeo sock RECV_TIMEOUT_SEC 0;
           Ev_send sock payload; Ev_recv sock (resp_size - 1);
           Ev_close sock]) /\
     (fst (w_recv w (resp_size - 1)) <= 0 -> response = [])).
Proof.
  unfold send_to_daemon. fold sock sun_path payload.
  destruct (Z.ltb_spec sock 0) as [Hs|Hs]; [left; split; [lia|reflexivity]|].
  right.
  destruct (Z.ltb_spec (w_connect w sun_path) 0) as [Hc|Hc];
    [left; split; [lia|split; [lia|reflexivity]]|].
  right.
  destruct (Z.ltb_spec (w_send w payload) 0) as [Hd|Hd];
    [left; split; [lia|split; [lia|split; [lia|reflexivity]]]|].
  right. split; [lia|split; [lia|split; [lia|]]].
  destruct (w_recv w (resp_size - 1)) as [n stored]. simpl fst.
  eexists; split; [reflexivity|].
  intros Hn. destruct (Z.ltb_spec 0 n); [lia|reflexivity].
Qed.

Lemma send_to_daemon_no_system_call (resp_size : Z) :
  count is_system_call
    (snd (send_to_daemon w socket_path command resp_size)) = 0%nat.
Proof.
  destruct (send_to_daemon_paths resp_size)
    as [[_ E]|[(_ & _ & E)|[(_ & _ & _ & E)|(_ & _ & _ & r & E & _)]]];
    rewrite E; reflexivity.
Qed.

(** C8.  Whichever way [send_to_daemon] returns, no descriptor it opened is
    left open; when [socket] gave a descriptor, the first call is the one
    that opened it, the last call closes it, and it is closed once. *)
Theorem send_to_daemon_closes_socket (resp_size : Z) :
  let tr := snd (send_to_daemon w socket_path command resp_size) in
  open_fds tr [] = [] /\
  (0 <= sock ->
   hd_error tr = Some (Ev_socket sock) /\
   last tr (Ev_socket sock) = Ev_close sock /\
   count (is_close_of sock) tr = 1%nat).
Proof.
  destruct (send_to_daemon_paths resp_size)
    as [[Hs E]|[(Hs & _ & E)|[(Hs & _ & _ & E)|(Hs & _ & _ & r & E & _)]]];
    rewrite E; cbn [snd open_fds hd_error last].
  - destruct (Z.ltb_spec sock 0); [|lia]. split; [reflexivity|lia].
  - destruct (Z.ltb_spec sock 0); [lia|]. cbn [remove].
    destruct (Z.eq_dec sock sock); [|congruence].
    split; [reflexivity|intros _].
    split; [reflexivity|split; [reflexivity|]].
    unfold count. cbn [filter is_close_of].
    now rewrite Z.eqb_refl.
  - destruct (Z.ltb_spec sock 0); [lia|]. cbn [remove].
    destruct (Z.eq_dec sock sock); [|congruence].
    split; [reflexivity|intros _].
    split; [reflexivity|split; [reflexivity|]].
    unfold count. cbn [filter is_close_of].
    now rewrite Z.eqb_refl.
  - destruct (Z.ltb_spec sock 0); [lia|]. cbn [remove].
    destruct (Z.eq_dec sock sock); [|congruence].
    split; [reflexivity|intros _].
    split; [reflexivity|split; [reflexivity|]].
    unfold count. cbn [filter is_close_of].
    now rewrite Z.eqb_refl.
Qed.

End RelayClient.

(** A command of at most 4094 characters is framed in full: the bytes
    handed to [send] are the command and one line feed. *)
Lemma payload_of_short_command (command : cstring) :
  (length command <= 4094)%nat ->
  snprintf MAX_CMD_LEN (command ++ [LF]) = command ++ [LF].
Proof.
  intros H. apply snprintf_fits. rewrite length_app. simpl length.
  unfold MAX_CMD_LEN. lia.
Qed.

(** * The process *)

Section Process.

(** Once the relay has succeeded, [main] is the response check. *)
Lemma main_relays (w : World) (tr : trace) (response : cstring) :
  relays w tr response ->
  main w = (fst (check_response response),
            tr ++ snd (check_response response)).
Proof.
  intros (cmd_path & command & socket_path & H1 & H2 & H3 & H4 & H5).
  unfold main. rewrite H1, H2, H3, H4, H5. simpl negb. cbv iota.
  now destruct (check_response response).
Qed.

Lemma system_call_not_presentation_free (tr : trace) :
  count is_system_call tr = 0%nat -> count is_presentation tr = 0%nat.
Proof.
  unfold count. induction tr as [|e tr IH]; [reflexivity|].
  destruct e; simpl; auto; discriminate.
Qed.

(** C6.  After [socket], [connect] and [send] have succeeded,
    [send_to_daemon] calls [recv] once and returns success; when [recv]
    returns zero or a negative value the response is the empty string, and
    the process then exits with code 0 having shown neither a dialog nor a
    notification. *)
Theorem empty_response_exits_zero (w : World)
    (socket_path command : cstring) :
  0 <= w_socket w ->
  0 <= w_connect w (strncpy (SUN_PATH_LEN - 1) socket_path) ->
  0 <= w_send w (snprintf MAX_CMD_LEN (command ++ [LF])) ->
  exists response tr,
    send_to_daemon w socket_path command MAX_CMD_LEN = (Some response, tr) /\
    count is_recv_call tr = 1%nat /\
    (fst (w_recv w (MAX_CMD_LEN - 1)) <= 0 ->
     response = [] /\
     forall cmd_path,
       get_command_file_path w MAX_PATH_LEN = Some cmd_path ->
       read_command w cmd_path MAX_CMD_LEN = Some command ->
       get_socket_path w MAX_PATH_LEN = Some socket_path ->
       w_access w socket_path = 0 ->
       main w = (0, tr) /\
       count is_system_call tr = 0%nat /\
       count is_presentation tr = 0%nat).
Proof.
  intros Hs Hc Hd.
  destruct (send_to_daemon_paths w socket_path command MAX_CMD_LEN)
    as [[Hs' _]|[(_ & Hc' & _)|[(_ & _ & Hd' & _)|(_ & _ & _ & r & E & Hr)]]];
    try lia.
  eexists; eexists; split; [exact E|]. split; [reflexivity|].
  intros Hn. specialize (Hr Hn). subst r. split; [reflexivity|].
  intros cmd_path H1 H2 H3 H4.
  split; [|split; reflexivity].
  erewrite (main_relays w _ []).
  - simpl. now rewrite app_nil_r.
  - exists cmd_path, command, socket_path. eauto.
Qed.

(** A run in which [recv] times out: one [recv] call, an empty response,
    exit code 0 and nothing shown. *)
Lemma empty_response_exits_zero_witness :
  send_to_daemon Demo.timeout_world (lit "/Users/ada/.cwm/cwm.sock")
    (lit "focus left") MAX_CMD_LEN = (Some [], Demo.answering_trace) /\
  count is_recv_call Demo.answering_trace = 1%nat /\
  main Demo.timeout_world = (0, Demo.answering_trace) /\
  count is_system_call Demo.answering_trace = 0%nat /\
  count is_presentation Demo.answering_trace = 0%nat.
Proof.
  destruct (empty_response_exits_zero Demo.timeout_world
              (lit "/Users/ada/.cwm/cwm.sock") (lit "focus left"))
    as (response & tr & E & Hrecv & Hrest);
    [vm_compute; discriminate..|].
  destruct Hrest as [-> Hmain]; [vm_compute; discriminate|].
  assert (Htr : tr = Demo.answering_trace).
  { vm_compute in E. injection E as <-. reflexivity. }
  subst tr.
  destruct (Hmain Demo.command_path eq_refl eq_refl eq_refl eq_refl)
    as (Hm & Hs & Hp).
  repeat (split; [assumption|]). assumption.
Defined.

(** The whole process when [recv] times out, evaluated. *)
Example timeout_run :
  main Demo.timeout_world = (0, Demo.answering_trace).
Proof. vm_compute. reflexivity. Qed.

(** The descriptor 3 of a complete exchange is opened first, closed last
    and closed once. *)
Lemma send_to_daemon_closes_socket_witness :
  open_fds Demo.answering_trace [] = [] /\
  hd_error Demo.answering_trace = Some (Ev_socket 3) /\
  last Demo.answering_trace (Ev_socket 3) = Ev_close 3 /\
  count (is_close_of 3) Demo.answering_trace = 1%nat.
Proof.
  destruct (send_to_daemon_closes_socket (Demo.answering [])
              (lit "/Users/ada/.cwm/cwm.sock") (lit "focus left")
              MAX_CMD_LEN) as [Hopen Hclose].
  split; [exact Hopen|].
  apply Hclose. vm_compute; discriminate.
Defined.

(** C1 at a command of 4095 characters.  The command file holds 4095
    letters and a line feed; [read_command] returns the 4095 letters, and
    the bytes handed to [send] are these 4095 letters without the line
    feed: the newline does not fit into [cmd_with_newline]. *)
Theorem newline_lost_at_4095 :
  length Demo.long_command = 4095%nat /\
  read_command Demo.long_command_world Demo.command_path MAX_CMD_LEN
    = Some Demo.long_command /\
  main Demo.long_command_world =
    (0, [Ev_socket 3; Ev_connect 3 (lit "/Users/ada/.cwm/cwm.sock");
         Ev_setsockopt_rcvtimeo 3 2 0;
         Ev_send 3 Demo.long_command; Ev_recv 3 4095; Ev_close 3]) /\
  Demo.long_command <> Demo.long_command ++ [LF].
Proof.
  split; [vm_compute; reflexivity|].
  split; [vm_compute; reflexivity|].
  split; [vm_compute; reflexivity|].
  intros H. apply (f_equal (@length ascii)) in H.
  rewrite length_app in H. simpl in H. lia.
Qed.

End Process.

(** * The response interpreter *)

Section Interpreter.

Lemma marker_has_no_colon : ~ In COLON MESSAGE_MARKER.
Proof. not_in_literal. Qed.

Lemma skip_blanks (blanks rest : cstring) :
  forallb is_space_or_quote blanks = true ->
  skip_spaces_quotes (blanks ++ rest) = skip_spaces_quotes rest.
Proof.
  induction blanks as [|c blanks IH]; simpl; [reflexivity|].
  intros H. apply andb_true_iff in H as [Hc Hb]. now rewrite Hc, IH.
Qed.

Lemma skip_stops (x rest : cstring) :
  x <> [] -> hd_error x <> Some SPACE -> ~ In DQUOTE x ->
  skip_spaces_quotes (x ++ rest) = x ++ rest.
Proof.
  destruct x as [|c x]; [contradiction|]. intros _ Hsp Hq. simpl.
  unfold is_space_or_quote.
  destruct (Ascii.eqb_spec c SPACE) as [->|_]; [now contradiction Hsp|].
  destruct (Ascii.eqb_spec c DQUOTE) as [->|_]; [|reflexivity].
  exfalso; apply Hq; now left.
Qed.

Lemma skip_is_suffix (c : ascii) (s : cstring) :
  In c (skip_spaces_quotes s) -> In c s.
Proof.
  induction s as [|a s IH]; simpl; [tauto|].
  destruct (is_space_or_quote a); [|tauto]. intros H; right; now apply IH.
Qed.

Lemma firstn_until (x rest : cstring) :
  firstn (length (x ++ rest) - length rest) (x ++ rest) = x.
Proof.
  rewrite length_app.
  replace (length x + length rest - length rest)%nat with (length x) by lia.
  rewrite firstn_app, Nat.sub_diag, firstn_all. simpl. apply app_nil_r.
Qed.

(** The message is read from the first occurrence of the message marker
    in the whole response. *)
Lemma extract_message_field (pre x post : cstring) :
  no_occurrence_before MESSAGE_MARKER (pre ++ message_field x ++ post)
    (length pre) = true ->
  x <> [] -> hd_error x <> Some SPACE -> ~ In DQUOTE x ->
  extract_message (pre ++ message_field x ++ post) = Some x.
Proof.
  intros Hfirst Hne Hsp Hq. unfold extract_message.
  rewrite (strstr_first MESSAGE_MARKER pre _ Hfirst).
  - unfold message_field. rewrite <- !app_assoc.
    change ([COLON; SPACE; DQUOTE] ++ x ++ [DQUOTE] ++ post)
      with (COLON :: [SPACE; DQUOTE] ++ x ++ DQUOTE :: post).
    rewrite (strchr_first COLON _ _ marker_has_no_colon).
    cbn [tl]. rewrite skip_blanks by reflexivity.
    rewrite skip_stops by assumption.
    rewrite (strchr_first DQUOTE _ _ Hq).
    now rewrite firstn_until.
  - unfold message_field. rewrite <- app_assoc. apply prefix_b_app.
Qed.

Lemma extract_message_unparseable (response : cstring) :
  unparseable response -> extract_message response = None.
Proof.
  intros [r Hno|pre rest Hfirst Hcolon|pre mid blanks value Hfirst Hcolon Hb Hq];
    unfold extract_message.
  - destruct (strstr r MESSAGE_MARKER) eqn:E; [|reflexivity].
    exfalso. apply Hno, strstr_substring. congruence.
  - rewrite (strstr_first MESSAGE_MARKER pre _ Hfirst)
      by apply prefix_b_app.
    rewrite strchr_none; [reflexivity|].
    rewrite in_app_iff. intros [H|H]; [now apply marker_has_no_colon|tauto].
  - rewrite (strstr_first MESSAGE_MARKER pre _ Hfirst)
      by apply prefix_b_app.
    rewrite app_assoc.
    change ([COLON] ++ blanks ++ value) with (COLON :: blanks ++ value).
    rewrite strchr_first.
    + cbn [tl]. rewrite skip_blanks by assumption.
      rewrite strchr_none; [reflexivity|].
      intros H. now apply Hq, skip_is_suffix.
    + rewrite in_app_iff.
      intros [H|H]; [now apply marker_has_no_colon|tauto].
Qed.

Lemma check_response_error (response : cstring) :
  substring ERROR_MARKER response ->
  check_response response =
    (1, show_notification TITLE
          match extract_message response with
          | Some msg => msg
          | None => lit "Command failed"
          end).
Proof.
  intros H. apply strstr_substring in H. unfold check_response.
  destruct (strstr response ERROR_MARKER); [|congruence].
  now destruct (extract_message response).
Qed.

End Interpreter.

(** * Dialogs and notifications *)

Section Presentation.

(** Two strings that differ inside their common length stay different
    behind any truncation that keeps the difference. *)
Lemma prefix_b_diverge (p q r : cstring) (k : nat) :
  (length q <= k)%nat ->
  prefix_b (firstn (length q) p) q = false ->
  prefix_b p (firstn k (q ++ r)) = false.
Proof.
  revert p k; induction q as [|b q IH]; intros p k Hk H.
  - simpl in H. discriminate.
  - destruct p as [|a p]; [simpl in H; discriminate|].
    destruct k as [|k]; [simpl in Hk; lia|].
    simpl in *. destruct (Ascii.eqb a b); [|reflexivity].
    simpl in *. apply IH; [lia|assumption].
Qed.

Lemma cmd_len_pred : Z.to_nat (MAX_CMD_LEN - 1) = 4095%nat.
Proof. reflexivity. Qed.

Lemma dialog_is_dialog (title message : cstring) :
  exists cmd,
    show_error_dialog title message = [Ev_system cmd] /\
    is_dialog (Ev_system cmd) = true /\
    is_notification (Ev_system cmd) = false.
Proof.
  eexists; split; [reflexivity|]. unfold is_dialog, is_notification, snprintf.
  split.
  - apply prefix_b_firstn. rewrite cmd_len_pred. vm_compute.
    apply Nat.leb_le. reflexivity.
  - apply prefix_b_diverge.
    + rewrite cmd_len_pred. apply Nat.leb_le. reflexivity.
    + reflexivity.
Qed.

Lemma notification_is_notification (title message : cstring) :
  exists cmd,
    show_notification title message = [Ev_system cmd] /\
    is_notification (Ev_system cmd) = true /\
    is_dialog (Ev_system cmd) = false.
Proof.
  eexists; split; [reflexivity|]. unfold is_dialog, is_notification, snprintf.
  split.
  - apply prefix_b_firstn. rewrite cmd_len_pred.
    apply Nat.leb_le. reflexivity.
  - apply prefix_b_diverge.
    + rewrite cmd_len_pred. apply Nat.leb_le. reflexivity.
    + reflexivity.
Qed.

Lemma notification_is_no_dialog (t m t' m' : cstring) :
  show_notification t m <> show_error_dialog t' m'.
Proof.
  intros H.
  destruct (notification_is_notification t m) as (c & E & _ & Hd).
  destruct (dialog_is_dialog t' m') as (c' & E' & Hd' & _).
  rewrite E, E' in H. injection H as ->. congruence.
Qed.

Lemma count_dialog (title message : cstring) :
  count is_presentation (show_error_dialog title message) = 1%nat /\
  count is_system_call (show_error_dialog title message) = 1%nat.
Proof.
  destruct (dialog_is_dialog title message) as (c & E & Hd & _).
  rewrite E. split; [|reflexivity].
  unfold count. cbn [filter]. unfold is_presentation. now rewrite Hd.
Qed.

Lemma count_notification (title message : cstring) :
  count is_presentation (show_notification title message) = 1%nat /\
  count is_system_call (show_notification title message) = 1%nat.
Proof.
  destruct (notification_is_notification title message) as (c & E & Hn & Hd).
  rewrite E. split; [|reflexivity].
  unfold count. cbn [filter]. unfold is_presentation. now rewrite Hn, Hd.
Qed.

End Presentation.

(** * The claims about the response and the exit code *)

Section Outcome.

(** C3, as the code has it.  After a successful relay, for a response that
    contains the error marker and whose first occurrence of the message
    marker begins a field [message_field x], where [x] is not empty, does
    not begin with a space and holds no double quote, [x] is extracted
    exactly, and the process shows one notification (not a dialog) with [x]
    and exits with code 1. *)
Theorem error_message_is_notified (w : World) (tr : trace)
    (response pre x post : cstring) :
  relays w tr response ->
  substring ERROR_MARKER response ->
  response = pre ++ message_field x ++ post ->
  no_occurrence_before MESSAGE_MARKER response (length pre) = true ->
  x <> [] -> hd_error x <> Some SPACE -> ~ In DQUOTE x ->
  extract_message response = Some x /\
  main w = (1, tr ++ show_notification TITLE x) /\
  exists cmd,
    show_notification TITLE x = [Ev_system cmd] /\
    is_notification (Ev_system cmd) = true /\
    is_dialog (Ev_system cmd) = false.
Proof.
  intros Hrel Herr -> Hfirst Hne Hsp Hq.
  pose proof (extract_message_field pre x post Hfirst Hne Hsp Hq) as Hx.
  split; [exact Hx|]. split; [|apply notification_is_notification].
  rewrite (main_relays _ _ _ Hrel), (check_response_error _ Herr), Hx.
  reflexivity.
Qed.

(** The answer [Demo.error_response] with the message [no window]. *)
Lemma error_message_is_notified_witness :
  extract_message (Demo.error_response (lit "no window"))
    = Some (lit "no window") /\
  main (Demo.answering (Demo.error_response (lit "no window")))
    = (1, Demo.answering_trace ++ show_notification TITLE (lit "no window")) /\
  exists cmd,
    show_notification TITLE (lit "no window") = [Ev_system cmd] /\
    is_notification (Ev_system cmd) = true /\
    is_dialog (Ev_system cmd) = false.
Proof.
  apply (error_message_is_notified
           (Demo.answering (Demo.error_response (lit "no window")))
           Demo.answering_trace
           (Demo.error_response (lit "no window"))
           (lit "{" ++ ERROR_MARKER ++ lit ": true, ")
           (lit "no window")
           (lit "}")).
  - exists Demo.command_path, (lit "focus left"),
      (lit "/Users/ada/.cwm/cwm.sock").
    repeat split; vm_compute; reflexivity.
  - occurs_between (lit "{")
      (lit ": true, " ++ message_field (lit "no window") ++ lit "}").
  - vm_compute; reflexivity.
  - vm_compute; reflexivity.
  - discriminate.
  - discriminate.
  - not_in_literal.
Defined.

(** C3 as it is written fails in three ways.  An empty value is not
    extracted: the generic message is shown.  A value that begins with a
    space loses the space.  And when the message marker occurs earlier in
    the response, the text after that first occurrence is shown. *)
Lemma error_message_not_always_exact :
  (substring ERROR_MARKER (Demo.error_response []) /\
   substring (message_field []) (Demo.error_response []) /\
   main (Demo.answering (Demo.error_response []))
     = (1, Demo.answering_trace
           ++ show_notification TITLE (lit "Command failed")) /\
   show_notification TITLE (lit "Command failed")
     <> show_notification TITLE []) /\
  (substring ERROR_MARKER (Demo.error_response (lit " left")) /\
   substring (message_field (lit " left"))
     (Demo.error_response (lit " left")) /\
   ~ In DQUOTE (lit " left") /\
   main (Demo.answering (Demo.error_response (lit " left")))
     = (1, Demo.answering_trace ++ show_notification TITLE (lit "left")) /\
   show_notification TITLE (lit "left")
     <> show_notification TITLE (lit " left")) /\
  (substring ERROR_MARKER (Demo.two_fields_response (lit "no window")) /\
   substring (message_field (lit "no window"))
     (Demo.two_fields_response (lit "no window")) /\
   ~ In DQUOTE (lit "no window") /\
   main (Demo.answering (Demo.two_fields_response (lit "no window")))
     = (1, Demo.answering_trace ++ show_notification TITLE (lit "7, ")) /\
   show_notification TITLE (lit "7, ")
     <> show_notification TITLE (lit "no window")).
Proof.
  split; [|split].
  - split; [|split; [|split]].
    + occurs_between (lit "{")
      (lit ": true, " ++ message_field [] ++ lit "}").
    + occurs_between (lit "{" ++ ERROR_MARKER ++ lit ": true, ")
      (lit "}").
    + vm_compute; reflexivity.
    + intros H. vm_compute in H. discriminate H.
  - split; [|split; [|split; [|split]]].
    + occurs_between (lit "{")
      (lit ": true, " ++ message_field (lit " left") ++ lit "}").
    + occurs_between (lit "{" ++ ERROR_MARKER ++ lit ": true, ")
      (lit "}").
    + not_in_literal.
    + vm_compute; reflexivity.
    + intros H. vm_compute in H. discriminate H.
  - split; [|split; [|split; [|split]]].
    + occurs_between (lit "{" ++ MESSAGE_MARKER ++ lit ": 7, ")
      (lit ": true, " ++ [DQUOTE] ++ lit "detail" ++ [DQUOTE] ++ lit ": {"
         ++ message_field (lit "no window") ++ lit "}}").
    + occurs_between
        (lit "{" ++ MESSAGE_MARKER ++ lit ": 7, " ++ ERROR_MARKER
         ++ lit ": true, " ++ [DQUOTE] ++ lit "detail" ++ [DQUOTE]
         ++ lit ": {")
        (lit "}}").
    + not_in_literal.
    + vm_compute; reflexivity.
    + intros H. vm_compute in H. discriminate H.
Qed.

(** C4, as the code has it.  The message marker is searched from the
    beginning of the response, not from the error marker: a message field
    that begins at the first occurrence of the message marker is used also
    when the error marker comes after it. *)
Theorem message_before_error_marker_is_used (pre x mid post : cstring) :
  no_occurrence_before MESSAGE_MARKER
    (pre ++ message_field x ++ mid ++ ERROR_MARKER ++ post)
    (length pre) = true ->
  x <> [] -> hd_error x <> Some SPACE -> ~ In DQUOTE x ->
  check_response (pre ++ message_field x ++ mid ++ ERROR_MARKER ++ post)
    = (1, show_notification TITLE x).
Proof.
  intros Hfirst Hne Hsp Hq.
  rewrite check_response_error.
  - now rewrite (extract_message_field pre x _ Hfirst Hne Hsp Hq).
  - exists (pre ++ message_field x ++ mid), post.
    now rewrite <- !app_assoc.
Qed.

(** An answer whose message field [early] stands in front of the error
    marker. *)
Lemma message_before_error_marker_is_used_witness :
  check_response
    (lit "{" ++ message_field (lit "early") ++ lit ", " ++ ERROR_MARKER
     ++ lit ": true}")
  = (1, show_notification TITLE (lit "early")).
Proof.
  apply (message_before_error_marker_is_used
           (lit "{") (lit "early") (lit ", ") (lit ": true}")).
  - vm_compute; reflexivity.
  - discriminate.
  - discriminate.
  - not_in_literal.
Defined.

(** C4 as it is written fails: on [Demo.message_first_response] the code
    shows [early], the field in front of the error marker, where a
    search restricted to the part after the error marker finds no message
    field and shows the generic message. *)
Lemma message_search_not_after_marker :
  check_response (Demo.message_first_response (lit "early"))
    = (1, show_notification TITLE (lit "early")) /\
  check_response_after_marker (Demo.message_first_response (lit "early"))
    = (1, show_notification TITLE (lit "Command failed")) /\
  check_response (Demo.message_first_response (lit "early"))
    <> check_response_after_marker
         (Demo.message_first_response (lit "early")).
Proof.
  split; [vm_compute; reflexivity|].
  split; [vm_compute; reflexivity|].
  intros H. vm_compute in H. discriminate H.
Qed.

(** C9.  After a successful relay, for a response that contains the error
    marker and whose message field cannot be read (no message marker, or no
    colon after it, or no double quote after the start of the value), the
    process shows one notification with [Command failed] and exits with
    code 1. *)
Theorem unparseable_message_falls_back (w : World) (tr : trace)
    (response : cstring) :
  relays w tr response ->
  substring ERROR_MARKER response ->
  unparseable response ->
  extract_message response = None /\
  main w = (1, tr ++ show_notification TITLE (lit "Command failed")) /\
  exists cmd,
    show_notification TITLE (lit "Command failed") = [Ev_system cmd] /\
    is_notification (Ev_system cmd) = true /\
    is_dialog (Ev_system cmd) = false.
Proof.
  intros Hrel Herr Hun.
  pose proof (extract_message_unparseable _ Hun) as Hx.
  split; [exact Hx|]. split; [|apply notification_is_notification].
  rewrite (main_relays _ _ _ Hrel), (check_response_error _ Herr), Hx.
  reflexivity.
Qed.

End Outcome.

Section ExitPaths.

(** The cut-off answer [Demo.unterminated_response]. *)
Lemma unparseable_message_falls_back_witness :
  extract_message Demo.unterminated_response = None /\
  main (Demo.answering Demo.unterminated_response)
    = (1, Demo.answering_trace
          ++ show_notification TITLE (lit "Command failed")) /\
  exists cmd,
    show_notification TITLE (lit "Command failed") = [Ev_system cmd] /\
    is_notification (Ev_system cmd) = true /\
    is_dialog (Ev_system cmd) = false.
Proof.
  apply (unparseable_message_falls_back
           (Demo.answering Demo.unterminated_response)
           Demo.answering_trace Demo.unterminated_response).
  - exists Demo.command_path, (lit "focus left"),
      (lit "/Users/ada/.cwm/cwm.sock").
    repeat split; vm_compute; reflexivity.
  - occurs_between (lit "{")
      (lit ": true, " ++ MESSAGE_MARKER ++ [COLON; SPACE; DQUOTE]
       ++ lit "oops").
  - refine (no_closing_quote (lit "{" ++ ERROR_MARKER ++ lit ": true, ")
              [] [SPACE; DQUOTE] (lit "oops") _ _ _ _).
    + vm_compute; reflexivity.
    + simpl; tauto.
    + reflexivity.
    + not_in_literal.
Defined.

(** The other two ways of being unreadable: no message marker at all, and
    a message marker that no colon follows. *)
Example no_marker_run :
  check_response (lit "{" ++ ERROR_MARKER ++ lit ": true}")
    = (1, show_notification TITLE (lit "Command failed")).
Proof. vm_compute. reflexivity. Qed.

Example no_delimiter_run :
  check_response (lit "{" ++ ERROR_MARKER ++ lit ", " ++ MESSAGE_MARKER
                  ++ lit " none}")
    = (1, show_notification TITLE (lit "Command failed")).
Proof. vm_compute. reflexivity. Qed.

(** C7.  When the socket path is computed and does not exist, the process
    exits with code 1 and makes no socket call at all; having read its
    command, it shows the blocking dialog whose message is the whole
    [NOT_RUNNING_MESSAGE], which tells how to start the daemon. *)
Theorem missing_socket_stops_before_connect (w : World)
    (socket_path : cstring) :
  get_socket_path w MAX_PATH_LEN = Some socket_path ->
  w_access w socket_path <> 0 ->
  fst (main w) = 1 /\
  count is_socket_call (snd (main w)) = 0%nat /\
  forall cmd_path command,
    get_command_file_path w MAX_PATH_LEN = Some cmd_path ->
    read_command w cmd_path MAX_CMD_LEN = Some command ->
    exists cmd,
      main w = (1, [Ev_system cmd]) /\
      is_dialog (Ev_system cmd) = true /\
      substring NOT_RUNNING_MESSAGE cmd /\
      substring (lit "cwm daemon start") NOT_RUNNING_MESSAGE /\
      substring (lit "cwm daemon install") NOT_RUNNING_MESSAGE.
Proof.
  intros Hpath Hprobe.
  apply Z.eqb_neq in Hprobe.
  assert (Hmain : forall cmd_path command,
             get_command_file_path w MAX_PATH_LEN = Some cmd_path ->
             read_command w cmd_path MAX_CMD_LEN = Some command ->
             main w = (1, show_error_dialog TITLE NOT_RUNNING_MESSAGE)).
  { intros cmd_path command H1 H2. unfold main.
    now rewrite H1, H2, Hpath, Hprobe. }
  split; [|split].
  - unfold main.
    destruct (get_command_file_path w MAX_PATH_LEN) as [cmd_path|] eqn:H1;
      [|reflexivity].
    destruct (read_command w cmd_path MAX_CMD_LEN) as [command|] eqn:H2;
      [|reflexivity].
    now rewrite Hpath, Hprobe.
  - unfold main.
    destruct (get_command_file_path w MAX_PATH_LEN) as [cmd_path|] eqn:H1;
      [|reflexivity].
    destruct (read_command w cmd_path MAX_CMD_LEN) as [command|] eqn:H2;
      [|reflexivity].
    now rewrite Hpath, Hprobe.
  - intros cmd_path command H1 H2.
    rewrite (Hmain _ _ H1 H2).
    destruct (dialog_is_dialog TITLE NOT_RUNNING_MESSAGE) as (c & E & Hd & _).
    exists c. rewrite E. split; [reflexivity|]. split; [exact Hd|].
    injection E as <-.
    split; [|split].
    + occurs_between (lit "osascript -e 'display dialog " ++ [DQUOTE])
      ([DQUOTE] ++ lit " buttons {" ++ [DQUOTE] ++ lit "OK" ++ [DQUOTE]
         ++ lit "} default button " ++ [DQUOTE] ++ lit "OK" ++ [DQUOTE]
         ++ lit " with title " ++ [DQUOTE] ++ TITLE ++ [DQUOTE]
         ++ lit "' 2>/dev/null").
    + occurs_between (lit "cwm daemon is not running.\n\nStart it with:\n  ")
      (lit "\n\nOr enable auto-start:\n  cwm daemon install").
    + occurs_between
        (lit "cwm daemon is not running.\n\nStart it with:\n  cwm daemon start"
         ++ lit "\n\nOr enable auto-start:\n  ")
        (@nil ascii).
Qed.

(** A run in which [access] returns [-1]. *)
Lemma missing_socket_stops_before_connect_witness :
  fst (main Demo.no_daemon_world) = 1 /\
  count is_socket_call (snd (main Demo.no_daemon_world)) = 0%nat /\
  exists cmd,
    main Demo.no_daemon_world = (1, [Ev_system cmd]) /\
    is_dialog (Ev_system cmd) = true /\
    substring NOT_RUNNING_MESSAGE cmd /\
    substring (lit "cwm daemon start") NOT_RUNNING_MESSAGE /\
    substring (lit "cwm daemon install") NOT_RUNNING_MESSAGE.
Proof.
  destruct (missing_socket_stops_before_connect Demo.no_daemon_world
              (lit "/Users/ada/.cwm/cwm.sock")) as (Hcode & Hsock & Hdialog).
  - vm_compute; reflexivity.
  - vm_compute; discriminate.
  - split; [exact Hcode|]. split; [exact Hsock|].
    exact (Hdialog Demo.command_path (lit "focus left") eq_refl eq_refl).
Defined.

(** The whole process when the socket is missing, evaluated. *)
Example no_daemon_run :
  main Demo.no_daemon_world
    = (1, show_error_dialog TITLE NOT_RUNNING_MESSAGE).
Proof. vm_compute. reflexivity. Qed.

Lemma check_response_cases (response : cstring) :
  check_response response = (0, []) \/
  exists msg, check_response response = (1, show_notification TITLE msg).
Proof.
  unfold check_response.
  destruct (strstr response ERROR_MARKER); [right|now left].
  destruct (extract_message response); eauto.
Qed.

(** C10.  Every [system] call of the process is a presentation call, and
    on every run the process either exits with code 0 having made none, or
    exits with code 1 having made exactly one. *)
Theorem one_presentation_call (w : World) :
  count is_system_call (snd (main w))
    = count is_presentation (snd (main w)) /\
  ((fst (main w) = 0 /\ count is_presentation (snd (main w)) = 0%nat) \/
   (fst (main w) = 1 /\ count is_presentation (snd (main w)) = 1%nat)).
Proof.
  assert (Hdialog : forall m,
    count is_system_call (show_error_dialog TITLE m)
      = count is_presentation (show_error_dialog TITLE m) /\
    ((1 = 0 /\ count is_presentation (show_error_dialog TITLE m) = 0%nat) \/
     (1 = 1 /\ count is_presentation (show_error_dialog TITLE m) = 1%nat))).
  { intros m. destruct (count_dialog TITLE m) as [-> ->]. auto. }
  unfold main.
  destruct (get_command_file_path w MAX_PATH_LEN) as [cmd_path|];
    [|apply Hdialog].
  destruct (read_command w cmd_path MAX_CMD_LEN) as [command|];
    [|apply Hdialog].
  destruct (get_socket_path w MAX_PATH_LEN) as [socket_path|];
    [|apply Hdialog].
  destruct (negb (w_access w socket_path =? 0)); [apply Hdialog|].
  pose proof (send_to_daemon_no_system_call w socket_path command MAX_CMD_LEN)
    as Hsys.
  pose proof (system_call_not_presentation_free _ Hsys) as Hpres.
  destruct (send_to_daemon w socket_path command MAX_CMD_LEN) as [[r|] tr];
    simpl snd in Hsys, Hpres.
  - destruct (check_response_cases r) as [E|[msg E]]; rewrite E; simpl.
    + rewrite app_nil_r, Hsys, Hpres. auto.
    + rewrite !count_app, Hsys, Hpres.
      destruct (count_notification TITLE msg) as [-> ->]. auto.
  - simpl. rewrite !count_app, Hsys, Hpres.
    destruct (count_dialog TITLE CONNECT_FAILED_MESSAGE) as [-> ->]. auto.
Qed.

End ExitPaths.

(** * Further properties of the stub *)

(** ** More about the command reader and the self-locator *)

Section ReaderEdges.



Lemma fgets_chars_long_line (n : nat) (f : list ascii) :
  (n <= length (first_line f))%nat -> fgets_chars n f = firstn n f.
Proof.
  revert f; induction n as [|n IH]; intros f H; [reflexivity|].
  destruct f as [|c f]; simpl in *; [lia|].
  destruct (Ascii.eqb c LF); simpl in H; [lia|].
  rewrite IH by lia. reflexivity.
Qed.

Lemma c_str_prefix (buf : list ascii) :
  ~ In NUL (c_str buf) /\ exists rest, buf = c_str buf ++ rest.
Proof.
  induction buf as [|c buf [IHn [rest IHp]]]; simpl.
  - split; [tauto|now exists []].
  - destruct (Ascii.eqb c NUL) eqn:E.
    + split; [simpl; tauto|]. now exists (c :: buf).
    + split.
      * intros [H|H]; [|tauto]. subst c. now rewrite eqb_ascii_refl in E.
      * exists rest. simpl. now rewrite <- IHp.
Qed.


Lemma in_firstn (c : ascii) (n : nat) (s : list ascii) :
  In c (firstn n s) -> In c s.
Proof.
  revert s; induction n as [|n IH]; intros s; simpl; [tauto|].
  destruct s as [|a s]; simpl; [tauto|]. intros [H|H]; auto.
Qed.


(** X1.  [read_command] fails exactly when the command file cannot be
    opened or is empty; the located process then exits with code 1 after
    the single dialog [Failed to read command file], without any socket
    call. *)
Theorem unreadable_command_file (w : World) (cmd_path : cstring) :
  get_command_file_path w MAX_PATH_LEN = Some cmd_path ->
  (read_command w cmd_path MAX_CMD_LEN = None <->
   w_fopen w cmd_path = None \/ w_fopen w cmd_path = Some []) /\
  (read_command w cmd_path MAX_CMD_LEN = None ->
   main w = (1, show_error_dialog TITLE (lit "Failed to read command file"))
   /\ count is_presentation (snd (main w)) = 1%nat
   /\ count is_socket_call (snd (main w)) = 0%nat).
Proof.
  intros Hloc. split.
  - unfold read_command.
    destruct (w_fopen w cmd_path) as [[|c f]|]; simpl.
    + split; auto.
    + split; [discriminate|]. intros [H|H]; discriminate.
    + split; auto.
  - intros Hread.
    assert (E : main w = (1, show_error_dialog TITLE
                               (lit "Failed to read command file")))
      by (unfold main; now rewrite Hloc, Hread).
    rewrite E. split; [reflexivity|]. split; [|reflexivity].
    apply count_dialog.
Qed.

(** A run without the command file. *)
Lemma unreadable_command_file_witness :
  read_command Demo.no_file_world Demo.command_path MAX_CMD_LEN = None /\
  main Demo.no_file_world
    = (1, show_error_dialog TITLE (lit "Failed to read command file")) /\
  count is_presentation (snd (main Demo.no_file_world)) = 1%nat /\
  count is_socket_call (snd (main Demo.no_file_world)) = 0%nat.
Proof.
  destruct (unreadable_command_file Demo.no_file_world Demo.command_path
              eq_refl) as [Hiff Hmain].
  assert (H : read_command Demo.no_file_world Demo.command_path MAX_CMD_LEN
              = None) by (apply Hiff; left; reflexivity).
  split; [exact H|]. exact (Hmain H).
Defined.



(** X3.  A first line of 4095 characters or more is cut: the command is
    made of the first 4095 characters of the file (which are text), less
    the carriage returns they end in; the rest of the line is dropped. *)
Theorem read_command_cuts_long_line (w : World) (cmd_path : cstring)
    (file : list ascii) :
  w_fopen w cmd_path = Some file ->
  (4095 <= length (first_line file))%nat ->
  ~ In NUL (firstn 4095 file) ->
  read_command w cmd_path MAX_CMD_LEN
    = Some (strip_trailing_crlf (firstn 4095 file)).
Proof.
  intros Hopen Hlen Hnul. unfold read_command. rewrite Hopen.
  assert (Hne : file <> []) by (intros ->; simpl in Hlen; lia).
  rewrite (fgets_nonempty _ _ Hne), trim_is_strip.
  change (Z.to_nat (MAX_CMD_LEN - 1)) with 4095%nat.
  rewrite (fgets_chars_long_line _ _ Hlen).
  now rewrite c_str_no_nul.
Qed.

(** A line of 5000 letters is cut to 4095. *)
Lemma read_command_cuts_long_line_witness :
  read_command Demo.overlong_file_world Demo.command_path MAX_CMD_LEN
    = Some (repeat "a"%char 4095).
Proof.
  rewrite (read_command_cuts_long_line Demo.overlong_file_world
             Demo.command_path Demo.overlong_file).
  - vm_compute; reflexivity.
  - reflexivity.
  - apply Nat.leb_le. vm_compute. reflexivity.
  - intros H. apply in_firstn, repeat_spec in H. discriminate H.
Defined.

(** X4.  The self-locator fails exactly when the executable path cannot be
    obtained, and the process then exits with code 1 after the single
    dialog [Failed to locate command file]; a failing [realpath] is not an
    error. *)
Theorem locate_fails_without_executable_path (w : World) :
  (get_command_file_path w MAX_PATH_LEN = None <->
   w_NSGetExecutablePath w MAX_PATH_LEN = None) /\
  (w_NSGetExecutablePath w MAX_PATH_LEN = None ->
   main w = (1, show_error_dialog TITLE (lit "Failed to locate command file"))
   /\ count is_presentation (snd (main w)) = 1%nat
   /\ count is_socket_call (snd (main w)) = 0%nat).
Proof.
  assert (Hiff : get_command_file_path w MAX_PATH_LEN = None <->
                 w_NSGetExecutablePath w MAX_PATH_LEN = None).
  { unfold get_command_file_path.
    destruct (w_NSGetExecutablePath w MAX_PATH_LEN); split;
      (discriminate || reflexivity). }
  split; [exact Hiff|]. intros H. apply Hiff in H.
  assert (E : main w = (1, show_error_dialog TITLE
                             (lit "Failed to locate command file")))
    by (unfold main; now rewrite H).
  rewrite E. split; [reflexivity|]. split; [|reflexivity].
  apply count_dialog.
Qed.

(** A run in which the executable path is not available. *)
Lemma locate_fails_without_executable_path_witness :
  get_command_file_path Demo.unlocatable MAX_PATH_LEN = None /\
  main Demo.unlocatable
    = (1, show_error_dialog TITLE (lit "Failed to locate command file")) /\
  count is_presentation (snd (main Demo.unlocatable)) = 1%nat /\
  count is_socket_call (snd (main Demo.unlocatable)) = 0%nat.
Proof.
  destruct (locate_fails_without_executable_path Demo.unlocatable)
    as [Hiff Hmain].
  split; [apply Hiff; reflexivity|]. apply Hmain. reflexivity.
Defined.

(** X5.  When [realpath] fails, the command file is looked for next to the
    executable path as the system reported it: for a reported path of at
    most 2047 characters in a directory of at most 2031 characters, the
    result is that directory followed by [/cwm_command.txt]. *)
Theorem locate_falls_back_to_raw_path (w : World) (exe_path : cstring) :
  w_NSGetExecutablePath w MAX_PATH_LEN = Some exe_path ->
  w_realpath w exe_path = None ->
  (length exe_path <= 2047)%nat ->
  (length (w_dirname w exe_path) <= 2031)%nat ->
  get_command_file_path w MAX_PATH_LEN
    = Some (w_dirname w exe_path ++ lit "/cwm_command.txt").
Proof.
  intros Hexe Hreal Hlen Hdir. unfold get_command_file_path.
  rewrite Hexe, Hreal. unfold strncpy.
  rewrite firstn_all2 by (unfold MAX_PATH_LEN; lia).
  f_equal. rewrite snprintf_fits.
  - reflexivity.
  - rewrite !length_app. unfold MAX_PATH_LEN.
    change (length (lit "/")) with 1%nat.
    change (length COMMAND_FILE) with 15%nat. lia.
Qed.

(** [realpath] fails for [/opt/cwm/Focus.app/stub]. *)
Lemma locate_falls_back_to_raw_path_witness :
  get_command_file_path Demo.unresolved_world MAX_PATH_LEN
    = Some (lit "/opt/cwm/Focus.app/cwm_command.txt").
Proof.
  rewrite (locate_falls_back_to_raw_path Demo.unresolved_world
             (lit "/opt/cwm/Focus.app/stub")).
  - reflexivity.
  - reflexivity.
  - reflexivity.
  - apply Nat.leb_le. reflexivity.
  - apply Nat.leb_le. reflexivity.
Defined.

End ReaderEdges.

(** ** More about the socket locator and the relay client *)

Section RelayEdges.

(** X6.  A [HOME] of more than 2033 characters does not make the locator
    fail: the socket path is cut to 2047 characters, so it is a proper
    prefix of [HOME] followed by [/.cwm/cwm.sock]. *)
Theorem get_socket_path_cuts_long_home (w : World) (home : cstring) :
  w_getenv w (lit "HOME") = Some home ->
  (2033 < length home)%nat ->
  exists path rest,
    get_socket_path w MAX_PATH_LEN = Some path /\
    length path = 2047%nat /\
    home ++ SOCKET_PATH_SUFFIX = path ++ rest /\
    rest <> [].
Proof.
  intros Hhome Hlen. unfold get_socket_path, snprintf. rewrite Hhome.
  change (Z.to_nat (MAX_PATH_LEN - 1)) with 2047%nat.
  assert (Htotal : (2047 < length (home ++ SOCKET_PATH_SUFFIX))%nat).
  { rewrite length_app. change (length SOCKET_PATH_SUFFIX) with 14%nat. lia. }
  exists (firstn 2047 (home ++ SOCKET_PATH_SUFFIX)),
         (skipn 2047 (home ++ SOCKET_PATH_SUFFIX)).
  split; [reflexivity|]. split; [|split].
  - rewrite length_firstn. lia.
  - now rewrite firstn_skipn.
  - intros H. apply (f_equal (@length ascii)) in H.
    rewrite length_skipn in H. simpl in H. lia.
Qed.

(** A home directory of 2040 characters. *)
Lemma get_socket_path_cuts_long_home_witness :
  exists path rest,
    get_socket_path Demo.long_home_world MAX_PATH_LEN = Some path /\
    length path = 2047%nat /\
    Demo.long_home ++ SOCKET_PATH_SUFFIX = path ++ rest /\
    rest <> [].
Proof.
  apply (get_socket_path_cuts_long_home Demo.long_home_world Demo.long_home).
  - reflexivity.
  - apply Nat.ltb_lt. vm_compute. reflexivity.
Defined.

(** X7.  [send_to_daemon] fails exactly when [socket], [connect] or [send]
    returns a negative value.  It calls [connect] only on a descriptor,
    [send] only after a successful [connect], and [recv] only after a
    successful [send]; each of them at most once. *)
Theorem send_to_daemon_fails_iff (w : World) (socket_path command : cstring)
    (resp_size : Z) :
  let sun_path := strncpy (SUN_PATH_LEN - 1) socket_path in
  let payload := snprintf MAX_CMD_LEN (command ++ [LF]) in
  let r := send_to_daemon w socket_path command resp_size in
  (fst r = None <->
   w_socket w < 0 \/ w_connect w sun_path < 0 \/ w_send w payload < 0) /\
  count is_connect_call (snd r)
    = (if w_socket w <? 0 then 0%nat else 1%nat) /\
  count is_send_call (snd r)
    = (if (w_socket w <? 0) || (w_connect w sun_path <? 0)
       then 0%nat else 1%nat) /\
  count is_recv_call (snd r)
    = match fst r with None => 0%nat | Some _ => 1%nat end.
Proof.
  cbv zeta.
  destruct (send_to_daemon_paths w socket_path command resp_size)
    as [[Hs E]|[(Hs & Hc & E)|[(Hs & Hc & Hd & E)|(Hs & Hc & Hd & x & E & _)]]];
    rewrite E; cbn [fst snd].
  - destruct (Z.ltb_spec (w_socket w) 0); [|lia].
    repeat split; auto.
  - destruct (Z.ltb_spec (w_socket w) 0); [lia|].
    destruct (Z.ltb_spec
                (w_connect w (strncpy (SUN_PATH_LEN - 1) socket_path)) 0);
      [|lia].
    repeat split; auto.
  - destruct (Z.ltb_spec (w_socket w) 0); [lia|].
    destruct (Z.ltb_spec
                (w_connect w (strncpy (SUN_PATH_LEN - 1) socket_path)) 0);
      [lia|].
    repeat split; auto.
  - destruct (Z.ltb_spec (w_socket w) 0); [lia|].
    destruct (Z.ltb_spec
                (w_connect w (strncpy (SUN_PATH_LEN - 1) socket_path)) 0);
      [lia|].
    split; [|repeat split].
    split; [discriminate|lia].
Qed.

(** X8.  Whenever [send_to_daemon] sends, it has before that, in this
    order, created the socket, connected it to the first 103 characters of
    the socket path and set the receive timeout to 2 seconds; what it sends
    on that socket is the command and a line feed, cut to 4095 bytes. *)
Theorem send_follows_timeout (w : World) (socket_path command : cstring)
    (resp_size fd : Z) (bytes : list ascii) :
  In (Ev_send fd bytes) (snd (send_to_daemon w socket_path command resp_size))
  ->
  fd = w_socket w /\
  bytes = firstn 4095 (command ++ [LF]) /\
  exists rest,
    snd (send_to_daemon w socket_path command resp_size) =
      [Ev_socket fd; Ev_connect fd (firstn 103 socket_path);
       Ev_setsockopt_rcvtimeo fd 2 0; Ev_send fd bytes] ++ rest.
Proof.
  destruct (send_to_daemon_paths w socket_path command resp_size)
    as [[Hs E]|[(Hs & Hc & E)|[(Hs & Hc & Hd & E)|(Hs & Hc & Hd & x & E & _)]]];
    rewrite E; cbn [snd]; intros H.
  - destruct H as [H|[]]; discriminate.
  - repeat (destruct H as [H|H]; [discriminate|]). destruct H.
  - destruct H as [H|[H|[H|[H|H]]]]; try discriminate.
    + injection H as <- <-. repeat split. eexists; reflexivity.
    + destruct H as [H|[]]; discriminate.
  - destruct H as [H|[H|[H|[H|H]]]]; try discriminate.
    + injection H as <- <-. repeat split. eexists; reflexivity.
    + destruct H as [H|[H|[]]]; discriminate.
Qed.

(** The complete exchange of [Demo.answering]. *)
Lemma send_follows_timeout_witness :
  3 = w_socket (Demo.answering []) /\
  lit "focus left" ++ [LF] = firstn 4095 (lit "focus left" ++ [LF]) /\
  exists rest,
    snd (send_to_daemon (Demo.answering []) (lit "/Users/ada/.cwm/cwm.sock")
           (lit "focus left") MAX_CMD_LEN) =
      [Ev_socket 3;
       Ev_connect 3 (firstn 103 (lit "/Users/ada/.cwm/cwm.sock"));
       Ev_setsockopt_rcvtimeo 3 2 0;
       Ev_send 3 (lit "focus left" ++ [LF])] ++ rest.
Proof.
  apply (send_follows_timeout (Demo.answering [])
           (lit "/Users/ada/.cwm/cwm.sock") (lit "focus left") MAX_CMD_LEN
           3 (lit "focus left" ++ [LF])).
  vm_compute. tauto.
Defined.

(** X9.  The response [send_to_daemon] returns is a C string: it holds no
    NUL, it is a prefix of the bytes [recv] stored, and it is no longer
    than the count [recv] returned (empty when that count is not
    positive). *)
Theorem response_is_bounded (w : World) (socket_path command : cstring)
    (resp_size : Z) (response : cstring) (tr : trace) :
  send_to_daemon w socket_path command resp_size = (Some response, tr) ->
  ~ In NUL response /\
  Z.of_nat (length response) <= Z.max 0 (fst (w_recv w (resp_size - 1))) /\
  exists rest, snd (w_recv w (resp_size - 1)) = response ++ rest.
Proof.
  unfold send_to_daemon.
  destruct (w_socket w <? 0); [discriminate|].
  destruct (w_connect w _ <? 0); [discriminate|].
  destruct (w_send w _ <? 0); [discriminate|].
  destruct (w_recv w (resp_size - 1)) as [n stored]. cbn [fst snd].
  intros [= <- _].
  destruct (Z.ltb_spec 0 n) as [Hn|Hn].
  - destruct (c_str_prefix (firstn (Z.to_nat n) stored)) as [Hnul [r Hr]].
    split; [exact Hnul|]. split.
    + apply (f_equal (@length ascii)) in Hr.
      rewrite length_app in Hr.
      pose proof (firstn_le_length (Z.to_nat n) stored). lia.
    + exists (r ++ skipn (Z.to_nat n) stored).
      now rewrite app_assoc, <- Hr, firstn_skipn.
  - split; [simpl; tauto|]. split; [simpl; lia|]. now exists stored.
Qed.

(** The answer of [Demo.answering] to an error response. *)
Lemma response_is_bounded_witness :
  ~ In NUL (Demo.error_response (lit "no window")) /\
  Z.of_nat (length (Demo.error_response (lit "no window")))
    <= Z.max 0 (fst (w_recv (Demo.answering
                               (Demo.error_response (lit "no window")))
                       (MAX_CMD_LEN - 1))) /\
  exists rest,
    snd (w_recv (Demo.answering (Demo.error_response (lit "no window")))
           (MAX_CMD_LEN - 1))
    = Demo.error_response (lit "no window") ++ rest.
Proof.
  apply (response_is_bounded
           (Demo.answering (Demo.error_response (lit "no window")))
           (lit "/Users/ada/.cwm/cwm.sock") (lit "focus left") MAX_CMD_LEN
           (Demo.error_response (lit "no window")) Demo.answering_trace).
  vm_compute. reflexivity.
Defined.

Lemma c_str_stops (before after : list ascii) :
  ~ In NUL before -> c_str (before ++ NUL :: after) = before.
Proof.
  induction before as [|c before IH]; intros Hnul; simpl; [reflexivity|].
  destruct (Ascii.eqb c NUL) eqn:E.
  - apply Ascii.eqb_eq in E. exfalso; apply Hnul; now left.
  - rewrite IH; [reflexivity|]. intros H; apply Hnul; now right.
Qed.

(** X10.  Bytes received after a NUL byte are not part of the response:
    when the bytes stored by [recv] hold a NUL within the count returned,
    the response is what stands before the first NUL. *)
Theorem response_stops_at_nul (w : World) (socket_path command : cstring)
    (resp_size : Z) (before after : list ascii) :
  0 <= w_socket w ->
  0 <= w_connect w (strncpy (SUN_PATH_LEN - 1) socket_path) ->
  0 <= w_send w (snprintf MAX_CMD_LEN (command ++ [LF])) ->
  snd (w_recv w (resp_size - 1)) = before ++ NUL :: after ->
  ~ In NUL before ->
  Z.of_nat (length before) < fst (w_recv w (resp_size - 1)) ->
  fst (send_to_daemon w socket_path command resp_size) = Some before.
Proof.
  intros Hs Hc Hd Hstored Hnul Hn. unfold send_to_daemon.
  destruct (Z.ltb_spec (w_socket w) 0); [lia|].
  destruct (Z.ltb_spec (w_connect w (strncpy (SUN_PATH_LEN - 1) socket_path)) 0);
    [lia|].
  destruct (Z.ltb_spec (w_send w (snprintf MAX_CMD_LEN (command ++ [LF]))) 0);
    [lia|].
  destruct (w_recv w (resp_size - 1)) as [n stored]. cbn [fst snd] in *.
  subst stored. destruct (Z.ltb_spec 0 n); [|lia]. f_equal.
  rewrite firstn_app.
  rewrite firstn_all2 by lia.
  destruct (Z.to_nat n - length before)%nat as [|k] eqn:Ek; [lia|].
  cbn [firstn]. now apply c_str_stops.
Qed.

(** The daemon answers [Demo.nul_cut_bytes]: only [ok] is the response,
    and the error answer behind the NUL goes unseen. *)
Lemma response_stops_at_nul_witness :
  fst (send_to_daemon (Demo.answering Demo.nul_cut_bytes)
         (lit "/Users/ada/.cwm/cwm.sock") (lit "focus left") MAX_CMD_LEN)
    = Some (lit "ok").
Proof.
  apply (response_stops_at_nul (Demo.answering Demo.nul_cut_bytes)
           (lit "/Users/ada/.cwm/cwm.sock") (lit "focus left") MAX_CMD_LEN
           (lit "ok") (Demo.error_response (lit "hidden"))).
  - vm_compute; discriminate.
  - vm_compute; discriminate.
  - vm_compute; discriminate.
  - reflexivity.
  - not_in_literal.
  - vm_compute; reflexivity.
Defined.

Example nul_cut_run :
  main (Demo.answering Demo.nul_cut_bytes) = (0, Demo.answering_trace).
Proof. vm_compute. reflexivity. Qed.

End RelayEdges.

(** ** More about the response interpreter *)

Section InterpreterEdges.

Lemma no_occurrence_before_cons (needle : cstring) (c : ascii)
    (hay : cstring) (n : nat) :
  prefix_b needle (c :: hay) = false ->
  no_occurrence_before needle hay n = true ->
  no_occurrence_before needle (c :: hay) (S n) = true.
Proof.
  unfold no_occurrence_before. intros H0 H. rewrite <- cons_seq.
  simpl forallb. rewrite forallb_seq_shift. simpl skipn at 1.
  simpl in H0. rewrite H0. exact H.
Qed.

(** What [strstr] returns starts at the first occurrence. *)
Lemma strstr_is_first (hay needle s : cstring) :
  strstr hay needle = Some s ->
  exists pre,
    hay = pre ++ s /\
    no_occurrence_before needle hay (length pre) = true.
Proof.
  induction hay as [|c hay IH]; simpl.
  - destruct (prefix_b needle []); [|discriminate].
    intros [= <-]. now exists [].
  - destruct (prefix_b needle (c :: hay)) eqn:E.
    + intros [= <-]. now exists [].
    + intros H. destruct (IH H) as (pre & -> & Hno).
      exists (c :: pre). split; [reflexivity|].
      now apply no_occurrence_before_cons.
Qed.

Lemma strchr_split (s r : cstring) (c : ascii) :
  strchr s c = Some r ->
  exists pre rest, s = pre ++ c :: rest /\ r = c :: rest /\ ~ In c pre.
Proof.
  induction s as [|a s IH]; simpl; [discriminate|].
  destruct (Ascii.eqb a c) eqn:E.
  - apply Ascii.eqb_eq in E; subst a. intros [= <-].
    exists [], s. simpl. tauto.
  - intros H. destruct (IH H) as (pre & rest & -> & -> & Hpre).
    exists (a :: pre), rest. split; [reflexivity|]. split; [reflexivity|].
    intros [Hin|Hin]; [|tauto]. subst a. now rewrite eqb_ascii_refl in E.
Qed.

Lemma skip_split (s : cstring) :
  exists blanks,
    s = blanks ++ skip_spaces_quotes s /\
    forallb is_space_or_quote blanks = true /\
    forall c t, skip_spaces_quotes s = c :: t -> is_space_or_quote c = false.
Proof.
  induction s as [|a s (blanks & Hs & Hb & Hhd)]; simpl.
  - exists []. repeat split. discriminate.
  - destruct (is_space_or_quote a) eqn:E.
    + exists (a :: blanks). simpl. rewrite E, Hb, <- Hs. auto.
    + exists []. repeat split. now intros c t [= <- _].
Qed.

(** A character that is not in [m] and first occurs after [m]. *)
Lemma first_after_prefix (m a b r : cstring) (c : ascii) :
  a ++ c :: b = m ++ r -> ~ In c m -> ~ In c a ->
  exists mid, a = m ++ mid /\ r = mid ++ c :: b.
Proof.
  revert a; induction m as [|x m IH]; intros a H Hm Ha.
  - exists a. simpl in *. auto.
  - destruct a as [|y a]; simpl in H.
    + injection H as -> _. exfalso; apply Hm; now left.
    + injection H as -> H.
      destruct (IH a H) as (mid & -> & ->).
      * intros Hin; apply Hm; now right.
      * intros Hin; apply Ha; now right.
      * now exists mid.
Qed.

(** X11.  Every message the interpreter extracts is not empty, holds no
    double quote and does not begin with a space; it stands in the
    response after the first occurrence of the message marker, the first
    colon behind it and a run of spaces and quotes, and in front of a
    double quote. *)
Theorem extracted_message_shape (response msg : cstring) :
  extract_message response = Some msg ->
  msg <> [] /\ ~ In DQUOTE msg /\ hd_error msg <> Some SPACE /\
  exists pre mid blanks post,
    response = pre ++ MESSAGE_MARKER ++ mid ++ [COLON] ++ blanks ++ msg
               ++ [DQUOTE] ++ post /\
    no_occurrence_before MESSAGE_MARKER response (length pre) = true /\
    ~ In COLON mid /\
    forallb is_space_or_quote blanks = true.
Proof.
  unfold extract_message.
  destruct (strstr response MESSAGE_MARKER) as [at_marker|] eqn:E1;
    [|discriminate].
  destruct (strchr at_marker COLON) as [at_colon|] eqn:E2; [|discriminate].
  destruct (strchr (skip_spaces_quotes (tl at_colon)) DQUOTE)
    as [msg_end|] eqn:E3; [|discriminate].
  intros [= <-].
  destruct (strstr_is_first _ _ _ E1) as (pre & Hresp & Hfirst).
  destruct (strstr_sound _ _ _ E1) as [Hp _].
  destruct (prefix_b_inv _ _ Hp) as [r0 ->].
  destruct (strchr_split _ _ _ E2) as (a & b & Hsplit & -> & Ha).
  destruct (first_after_prefix _ _ _ _ _ (eq_sym Hsplit)
              marker_has_no_colon Ha)
    as (mid & -> & ->).
  cbn [tl] in *.
  destruct (skip_split b) as (blanks & Hb & Hblanks & Hhd).
  destruct (strchr_split _ _ _ E3) as (m & post & Hm & -> & Hq).
  rewrite Hm, firstn_until.
  assert (Hne : m <> []).
  { intros ->. simpl in Hm. specialize (Hhd _ _ Hm).
    unfold is_space_or_quote in Hhd.
    rewrite eqb_ascii_refl, orb_true_r in Hhd. discriminate. }
  split; [exact Hne|]. split; [exact Hq|]. split.
  - destruct m as [|c m]; [contradiction|]. simpl. intros [= ->].
    specialize (Hhd _ _ Hm). unfold is_space_or_quote in Hhd.
    rewrite eqb_ascii_refl in Hhd. discriminate.
  - exists pre, mid, blanks, post. split; [|split; [|split]].
    + rewrite Hresp. do 3 f_equal. cbn [app]. f_equal.
      rewrite <- Hm. exact Hb.
    + exact Hfirst.
    + intros Hin. apply Ha, in_or_app. now right.
    + exact Hblanks.
Qed.

(** The answer [Demo.error_response] with the message [no window]. *)
Lemma extracted_message_shape_witness :
  lit "no window" <> [] /\ ~ In DQUOTE (lit "no window") /\
  hd_error (lit "no window") <> Some SPACE /\
  exists pre mid blanks post,
    Demo.error_response (lit "no window")
      = pre ++ MESSAGE_MARKER ++ mid ++ [COLON] ++ blanks ++ lit "no window"
        ++ [DQUOTE] ++ post /\
    no_occurrence_before MESSAGE_MARKER
      (Demo.error_response (lit "no window")) (length pre) = true /\
    ~ In COLON mid /\
    forallb is_space_or_quote blanks = true.
Proof.
  apply (extracted_message_shape (Demo.error_response (lit "no window"))
           (lit "no window")).
  vm_compute. reflexivity.
Defined.

(** X12.  The interpreter accepts any layout of the field: when the first
    occurrence of the message marker is followed by text without a colon,
    a colon, a run of spaces and quotes, a value [x] and a double quote,
    where [x] is not empty, does not begin with a space and holds no double
    quote, the message extracted is [x]. *)
Theorem extract_message_any_layout (pre mid blanks x post : cstring) :
  no_occurrence_before MESSAGE_MARKER
    (pre ++ MESSAGE_MARKER ++ mid ++ [COLON] ++ blanks ++ x ++ [DQUOTE]
     ++ post) (length pre) = true ->
  ~ In COLON mid ->
  forallb is_space_or_quote blanks = true ->
  x <> [] -> hd_error x <> Some SPACE -> ~ In DQUOTE x ->
  extract_message
    (pre ++ MESSAGE_MARKER ++ mid ++ [COLON] ++ blanks ++ x ++ [DQUOTE]
     ++ post) = Some x.
Proof.
  intros Hfirst Hmid Hblanks Hne Hsp Hq. unfold extract_message.
  rewrite (strstr_first MESSAGE_MARKER pre _ Hfirst) by apply prefix_b_app.
  rewrite app_assoc.
  change ([COLON] ++ blanks ++ x ++ [DQUOTE] ++ post)
    with (COLON :: blanks ++ x ++ DQUOTE :: post).
  rewrite strchr_first.
  - cbn [tl]. rewrite skip_blanks by assumption.
    rewrite skip_stops by assumption.
    rewrite (strchr_first DQUOTE _ _ Hq).
    now rewrite firstn_until.
  - rewrite in_app_iff.
    intros [H|H]; [now apply marker_has_no_colon|tauto].
Qed.

(** A compact answer, without spaces after the colons. *)
Lemma extract_message_any_layout_witness :
  extract_message (Demo.compact_response (lit "no window"))
    = Some (lit "no window").
Proof.
  apply (extract_message_any_layout
           (lit "{" ++ ERROR_MARKER ++ lit ":true,") [] [DQUOTE]
           (lit "no window") (lit "}")).
  - vm_compute; reflexivity.
  - simpl; tauto.
  - reflexivity.
  - discriminate.
  - discriminate.
  - not_in_literal.
Defined.

(** X13.  After a successful relay the exit code tells whether the
    response holds the error marker: it is 1 exactly when the marker occurs
    anywhere in the response, and otherwise the process exits with code 0
    having made no call beyond the socket calls. *)
Theorem exit_code_tells_marker (w : World) (tr : trace) (response : cstring) :
  relays w tr response ->
  (substring ERROR_MARKER response <-> fst (main w) = 1) /\
  (~ substring ERROR_MARKER response <-> main w = (0, tr)).
Proof.
  intros Hrel. rewrite (main_relays _ _ _ Hrel).
  destruct (strstr response ERROR_MARKER) as [s|] eqn:E.
  - assert (Hsub : substring ERROR_MARKER response)
      by (apply strstr_substring; congruence).
    rewrite (check_response_error _ Hsub). cbn [fst snd].
    split; split; auto; try tauto. discriminate.
  - assert (Hsub : ~ substring ERROR_MARKER response)
      by (intros H; apply strstr_substring in H; congruence).
    unfold check_response. rewrite E. cbn [fst snd]. rewrite app_nil_r.
    split; split; auto; try tauto. discriminate.
Qed.

(** The daemon answers [ok]: no marker, exit code 0. *)
Lemma exit_code_tells_marker_witness :
  (substring ERROR_MARKER (lit "ok")
   <-> fst (main (Demo.answering (lit "ok"))) = 1) /\
  (~ substring ERROR_MARKER (lit "ok")
   <-> main (Demo.answering (lit "ok")) = (0, Demo.answering_trace)).
Proof.
  apply (exit_code_tells_marker (Demo.answering (lit "ok"))
           Demo.answering_trace (lit "ok")).
  exists Demo.command_path, (lit "focus left"),
    (lit "/Users/ada/.cwm/cwm.sock").
  repeat split; vm_compute; reflexivity.
Defined.

End InterpreterEdges.

(** ** More about the process and its dialogs *)

(** Evaluates the lengths of the literal pieces of a string. *)
Ltac literal_lengths :=
  repeat match goal with
         | |- context [length (lit ?s)] =>
             let n := eval vm_compute in (length (lit s)) in
             change (length (lit s)) with n
         | |- context [length [?c]] => change (length [c]) with 1%nat
         end.

Section ProcessEdges.

Lemma recv_count_by_result (w : World)
    (socket_path command : cstring) :
  count is_recv_call
    (snd (send_to_daemon w socket_path command MAX_CMD_LEN))
  = match fst (send_to_daemon w socket_path command MAX_CMD_LEN) with
    | None => 0%nat
    | Some _ => 1%nat
    end.
Proof.
  destruct (send_to_daemon_paths w socket_path command MAX_CMD_LEN)
    as [[_ E]|[(_ & _ & E)|[(_ & _ & _ & E)|(_ & _ & _ & r & E & _)]]];
    rewrite E; reflexivity.
Qed.

Lemma snprintf_cut (size : Z) (s : cstring) :
  size - 1 < Z.of_nat (length s) -> 0 <= size - 1 ->
  exists rest,
    s = snprintf size s ++ rest /\ rest <> [] /\
    Z.of_nat (length (snprintf size s)) = size - 1.
Proof.
  intros H H0. unfold snprintf. exists (skipn (Z.to_nat (size - 1)) s).
  split; [now rewrite firstn_skipn|]. split.
  - intros E. apply (f_equal (@length ascii)) in E.
    rewrite length_skipn in E. simpl in E. lia.
  - rewrite length_firstn. lia.
Qed.

(** X14.  The command line of a notification is complete when title and
    message together have at most 4031 characters; beyond that it is cut
    to 4095 characters and loses its end. *)
Theorem notification_command_line (title message : cstring) :
  let full :=
    lit "osascript -e 'display notification " ++ [DQUOTE] ++ message
    ++ [DQUOTE] ++ lit " with title " ++ [DQUOTE] ++ title ++ [DQUOTE]
    ++ lit "' 2>/dev/null" in
  ((length title + length message <= 4031)%nat ->
   show_notification title message = [Ev_system full]) /\
  ((4031 < length title + length message)%nat ->
   exists cmd rest,
     show_notification title message = [Ev_system cmd] /\
     length cmd = 4095%nat /\ full = cmd ++ rest /\ rest <> []).
Proof.
  intros full.
  assert (Hlen : length full = (64 + length title + length message)%nat).
  { unfold full. rewrite !length_app. literal_lengths. lia. }
  split; intros H; unfold show_notification; fold full.
  - rewrite snprintf_fits; [reflexivity|]. unfold MAX_CMD_LEN. lia.
  - destruct (snprintf_cut MAX_CMD_LEN full) as (rest & Hfull & Hrest & Hcut).
    + unfold MAX_CMD_LEN. lia.
    + unfold MAX_CMD_LEN. lia.
    + exists (snprintf MAX_CMD_LEN full), rest.
      split; [reflexivity|]. split; [|split; assumption].
      unfold MAX_CMD_LEN in *. lia.
Qed.

(** The notification [no window], in full. *)
Lemma notification_command_line_witness :
  show_notification TITLE (lit "no window")
    = [Ev_system
         (lit "osascript -e 'display notification " ++ [DQUOTE]
          ++ lit "no window" ++ [DQUOTE] ++ lit " with title " ++ [DQUOTE]
          ++ TITLE ++ [DQUOTE] ++ lit "' 2>/dev/null")].
Proof.
  apply (proj1 (notification_command_line TITLE (lit "no window"))).
  apply Nat.leb_le. reflexivity.
Defined.

(** X15.  The command line of a dialog is complete when title and message
    together have at most 4002 characters; beyond that it is cut to 4095
    characters and loses its end. *)
Theorem dialog_command_line (title message : cstring) :
  let full :=
    lit "osascript -e 'display dialog " ++ [DQUOTE] ++ message ++ [DQUOTE]
    ++ lit " buttons {" ++ [DQUOTE] ++ lit "OK" ++ [DQUOTE]
    ++ lit "} default button " ++ [DQUOTE] ++ lit "OK" ++ [DQUOTE]
    ++ lit " with title " ++ [DQUOTE] ++ title ++ [DQUOTE]
    ++ lit "' 2>/dev/null" in
  ((length title + length message <= 4002)%nat ->
   show_error_dialog title message = [Ev_system full]) /\
  ((4002 < length title + length message)%nat ->
   exists cmd rest,
     show_error_dialog title message = [Ev_system cmd] /\
     length cmd = 4095%nat /\ full = cmd ++ rest /\ rest <> []).
Proof.
  intros full.
  assert (Hlen : length full = (93 + length title + length message)%nat).
  { unfold full. rewrite !length_app. literal_lengths. lia. }
  split; intros H; unfold show_error_dialog; fold full.
  - rewrite snprintf_fits; [reflexivity|]. unfold MAX_CMD_LEN. lia.
  - destruct (snprintf_cut MAX_CMD_LEN full) as (rest & Hfull & Hrest & Hcut).
    + unfold MAX_CMD_LEN. lia.
    + unfold MAX_CMD_LEN. lia.
    + exists (snprintf MAX_CMD_LEN full), rest.
      split; [reflexivity|]. split; [|split; assumption].
      unfold MAX_CMD_LEN in *. lia.
Qed.

(** The dialog of a missing daemon, in full. *)
Lemma dialog_command_line_witness :
  show_error_dialog TITLE NOT_RUNNING_MESSAGE
    = [Ev_system
         (lit "osascript -e 'display dialog " ++ [DQUOTE]
          ++ NOT_RUNNING_MESSAGE ++ [DQUOTE]
          ++ lit " buttons {" ++ [DQUOTE] ++ lit "OK" ++ [DQUOTE]
          ++ lit "} default button " ++ [DQUOTE] ++ lit "OK" ++ [DQUOTE]
          ++ lit " with title " ++ [DQUOTE] ++ TITLE ++ [DQUOTE]
          ++ lit "' 2>/dev/null")].
Proof.
  apply (proj1 (dialog_command_line TITLE NOT_RUNNING_MESSAGE)).
  apply Nat.leb_le. reflexivity.
Defined.

(** X16.  When the relay fails after the probe (no descriptor, a refused
    connection or a failed send), the process exits with code 1; after the
    socket calls, which hold no [recv], its one further call is the
    blocking dialog (not a notification) with the whole
    [CONNECT_FAILED_MESSAGE], which tells how to restart the daemon. *)
Theorem relay_failure_dialog (w : World)
    (cmd_path command socket_path : cstring) (tr : trace) :
  get_command_file_path w MAX_PATH_LEN = Some cmd_path ->
  read_command w cmd_path MAX_CMD_LEN = Some command ->
  get_socket_path w MAX_PATH_LEN = Some socket_path ->
  w_access w socket_path = 0 ->
  send_to_daemon w socket_path command MAX_CMD_LEN = (None, tr) ->
  count is_recv_call tr = 0%nat /\
  exists cmd,
    main w = (1, tr ++ [Ev_system cmd]) /\
    is_dialog (Ev_system cmd) = true /\
    is_notification (Ev_system cmd) = false /\
    substring CONNECT_FAILED_MESSAGE cmd /\
    substring (lit "cwm daemon stop\n  cwm daemon start")
      CONNECT_FAILED_MESSAGE.
Proof.
  intros H1 H2 H3 H4 H5. split.
  - pose proof (recv_count_by_result w socket_path command) as Hr.
    rewrite H5 in Hr. exact Hr.
  - destruct (dialog_is_dialog TITLE CONNECT_FAILED_MESSAGE)
      as (c & E & Hd & Hn).
    exists c. split; [|split; [exact Hd|split; [exact Hn|]]].
    + unfold main. rewrite H1, H2, H3, H4, H5. simpl negb. cbv iota.
      now rewrite E.
    + injection E as <-. split.
      * occurs_between (lit "osascript -e 'display dialog " ++ [DQUOTE])
          ([DQUOTE] ++ lit " buttons {" ++ [DQUOTE] ++ lit "OK" ++ [DQUOTE]
           ++ lit "} default button " ++ [DQUOTE] ++ lit "OK" ++ [DQUOTE]
           ++ lit " with title " ++ [DQUOTE] ++ TITLE ++ [DQUOTE]
           ++ lit "' 2>/dev/null").
      * occurs_between
          (lit "Failed to connect to cwm daemon.\n\nTry restarting it:\n  ")
          (@nil ascii).
Qed.

(** A stale socket file: [connect] fails. *)
Lemma relay_failure_dialog_witness :
  count is_recv_call Demo.stale_socket_trace = 0%nat /\
  exists cmd,
    main Demo.stale_socket_world
      = (1, Demo.stale_socket_trace ++ [Ev_system cmd]) /\
    is_dialog (Ev_system cmd) = true /\
    is_notification (Ev_system cmd) = false /\
    substring CONNECT_FAILED_MESSAGE cmd /\
    substring (lit "cwm daemon stop\n  cwm daemon start")
      CONNECT_FAILED_MESSAGE.
Proof.
  apply (relay_failure_dialog Demo.stale_socket_world Demo.command_path
           (lit "focus left") (lit "/Users/ada/.cwm/cwm.sock")
           Demo.stale_socket_trace); vm_compute; reflexivity.
Defined.

(** X17.  A complete run.  With a command of at most 4094 characters, a
    [HOME] of at most 89 characters whose socket path exists, and
    [socket], [connect] and [send] succeeding, the process connects to
    [HOME] followed by [/.cwm/cwm.sock], sets the receive timeout to 2
    seconds, sends the command followed by one line feed, calls [recv] for
    up to 4095 bytes and closes the socket; exit code and notification are
    those of the response check. *)
Theorem complete_run (w : World) (cmd_path command home : cstring)
    (n : Z) (stored : list ascii) :
  get_command_file_path w MAX_PATH_LEN = Some cmd_path ->
  read_command w cmd_path MAX_CMD_LEN = Some command ->
  (length command <= 4094)%nat ->
  w_getenv w (lit "HOME") = Some home ->
  (length home <= 89)%nat ->
  w_access w (home ++ lit "/.cwm/cwm.sock") = 0 ->
  0 <= w_socket w ->
  0 <= w_connect w (home ++ lit "/.cwm/cwm.sock") ->
  0 <= w_send w (command ++ [LF]) ->
  w_recv w 4095 = (n, stored) ->
  let response :=
    if 0 <? n then c_str (firstn (Z.to_nat n) stored) else [] in
  main w =
    (fst (check_response response),
     [Ev_socket (w_socket w);
      Ev_connect (w_socket w) (home ++ lit "/.cwm/cwm.sock");
      Ev_setsockopt_rcvtimeo (w_socket w) 2 0;
      Ev_send (w_socket w) (command ++ [LF]);
      Ev_recv (w_socket w) 4095;
      Ev_close (w_socket w)] ++ snd (check_response response)).
Proof.
  intros Hloc Hread Hcmd Hhome Hlen Hprobe Hs Hc Hd Hrecv response.
  assert (Hsuffix : length (lit "/.cwm/cwm.sock") = 14%nat) by reflexivity.
  assert (Hpath : get_socket_path w MAX_PATH_LEN
                  = Some (home ++ lit "/.cwm/cwm.sock")).
  { unfold get_socket_path. rewrite Hhome. f_equal. apply snprintf_fits.
    fold SOCKET_PATH_SUFFIX in Hsuffix |- *.
    rewrite length_app, Hsuffix. unfold MAX_PATH_LEN. lia. }
  apply main_relays.
  exists cmd_path, command, (home ++ lit "/.cwm/cwm.sock").
  repeat (split; [assumption|]).
  unfold send_to_daemon.
  assert (Hsun : strncpy (SUN_PATH_LEN - 1) (home ++ lit "/.cwm/cwm.sock")
                 = home ++ lit "/.cwm/cwm.sock").
  { unfold strncpy. apply firstn_all2.
    rewrite length_app, Hsuffix. unfold SUN_PATH_LEN. lia. }
  rewrite Hsun, (payload_of_short_command command Hcmd).
  destruct (Z.ltb_spec (w_socket w) 0); [lia|].
  destruct (Z.ltb_spec (w_connect w (home ++ lit "/.cwm/cwm.sock")) 0);
    [lia|].
  destruct (Z.ltb_spec (w_send w (command ++ [LF])) 0); [lia|].
  change (MAX_CMD_LEN - 1) with 4095. rewrite Hrecv. reflexivity.
Qed.

(** The daemon answers with the error [no window]. *)
Lemma complete_run_witness :
  main (Demo.answering (Demo.error_response (lit "no window")))
    = (1, [Ev_socket 3; Ev_connect 3 (lit "/Users/ada/.cwm/cwm.sock");
           Ev_setsockopt_rcvtimeo 3 2 0;
           Ev_send 3 (lit "focus left" ++ [LF]);
           Ev_recv 3 4095; Ev_close 3]
          ++ show_notification TITLE (lit "no window")).
Proof.
  apply (complete_run (Demo.answering (Demo.error_response (lit "no window")))
           Demo.command_path (lit "focus left") (lit "/Users/ada")
           (Z.of_nat (length (Demo.error_response (lit "no window"))))
           (Demo.error_response (lit "no window"))).
  - reflexivity.
  - reflexivity.
  - apply Nat.leb_le. reflexivity.
  - reflexivity.
  - apply Nat.leb_le. reflexivity.
  - reflexivity.
  - vm_compute; discriminate.
  - vm_compute; discriminate.
  - vm_compute; discriminate.
  - reflexivity.
Defined.

(** X18.  The process touches the socket API only after it has located
    and read the command file, found [HOME] and seen the socket path
    exist; its first socket call is then [socket]. *)
Theorem socket_calls_follow_probe (w : World) :
  count is_socket_call (snd (main w)) <> 0%nat ->
  exists cmd_path command socket_path,
    get_command_file_path w MAX_PATH_LEN = Some cmd_path /\
    read_command w cmd_path MAX_CMD_LEN = Some command /\
    get_socket_path w MAX_PATH_LEN = Some socket_path /\
    w_access w socket_path = 0 /\
    hd_error (snd (main w)) = Some (Ev_socket (w_socket w)).
Proof.
  intros Hcalls.
  destruct (get_command_file_path w MAX_PATH_LEN) as [cmd_path|] eqn:H1;
    [|unfold main in Hcalls; rewrite H1 in Hcalls; now contradiction Hcalls].
  destruct (read_command w cmd_path MAX_CMD_LEN) as [command|] eqn:H2;
    [|unfold main in Hcalls; rewrite H1, H2 in Hcalls;
      now contradiction Hcalls].
  destruct (get_socket_path w MAX_PATH_LEN) as [socket_path|] eqn:H3;
    [|unfold main in Hcalls; rewrite H1, H2, H3 in Hcalls;
      now contradiction Hcalls].
  destruct (Z.eqb_spec (w_access w socket_path) 0) as [H4|H4];
    [|unfold main in Hcalls; rewrite H1, H2, H3 in Hcalls;
      apply Z.eqb_neq in H4; rewrite H4 in Hcalls;
      now contradiction Hcalls].
  exists cmd_path, command, socket_path.
  unfold main. rewrite H1, H2, H3, H4. simpl negb. cbv iota.
  do 4 (split; [reflexivity|]).
  destruct (send_to_daemon_paths w socket_path command MAX_CMD_LEN)
    as [[_ E]|[(_ & _ & E)|[(_ & _ & _ & E)|(_ & _ & _ & r & E & _)]]];
    rewrite E; try reflexivity.
  destruct (check_response r); reflexivity.
Qed.

(** The exchange of [Demo.answering]. *)
Lemma socket_calls_follow_probe_witness :
  exists cmd_path command socket_path,
    get_command_file_path (Demo.answering []) MAX_PATH_LEN = Some cmd_path /\
    read_command (Demo.answering []) cmd_path MAX_CMD_LEN = Some command /\
    get_socket_path (Demo.answering []) MAX_PATH_LEN = Some socket_path /\
    w_access (Demo.answering []) socket_path = 0 /\
    hd_error (snd (main (Demo.answering [])))
      = Some (Ev_socket (w_socket (Demo.answering []))).
Proof.
  apply (socket_calls_follow_probe (Demo.answering [])).
  vm_compute. discriminate.
Defined.

End ProcessEdges.
